(** * HallDataR: a shallow embedding of [HallDataR.py]

    The Python class [HallDataR] drives three lock-in amplifiers, a
    multimeter and a magnet controller over GPIB, keeps the samples in
    parallel lists and logs them to a csv file.

    Embedding:
    - the object's attributes are a record [HallDataR]; [self.data] holds
      references to the very list objects bound to [self.diodevs] ...
      [self.freqs] (they are only ever mutated in place), so it is the
      function [data] of the record, always in step with the columns;
    - Python floats are the kernel's binary64 floats;
    - instruments, clock and file system are a world: the trace of I/O
      events so far, the files, and a [Lab] that answers queries as a
      function of the trace;
    - a method is a function [World -> outcome]: it returns, raises a
      Python exception, or is still looping when the fuel of a [while]
      loop is used up;
    - what belongs to CPython and its libraries and not to this file
      ([float] of a string, [repr] of a float, [dateutil.parser.parse]) is
      the interface [PyRuntime]. *)

From Stdlib Require Import ZArith List String Ascii Bool Lia PeanoNat.
From Stdlib Require Import DecimalString DecimalPos DecimalZ.
From Stdlib Require Import Floats.PrimFloat.
Import ListNotations.

Set Warnings "-inexact-float".
Local Open Scope list_scope.
Local Open Scope string_scope.

(** ** Python values and exceptions *)

Inductive pyval : Type :=
| PInt (z : Z)
| PFloat (x : float)
| PStr (s : string).

Inductive exn : Type :=
| TypeError
| NameError (name : string)
| UnboundLocalError (name : string)
| AttributeError (name : string)
| IndexError
| ValueError (arg : string)
| ParserError (arg : string)
| FileNotFoundError (filename : string).

(** [datetime.datetime], naive (no time zone), as [now()] returns it. *)
Record datetime : Type := mk_datetime {
  year : nat; month : nat; day : nat;
  hour : nat; minute : nat; second : nat; microsecond : nat
}.

Definition newline : string := String (ascii_of_nat 10) EmptyString.

Definition digits (n : nat) : string := NilZero.string_of_uint (Nat.to_uint n).

Fixpoint zeros (n : nat) : string :=
  match n with
  | O => EmptyString
  | S k => String "0" (zeros k)
  end.

(** ["%0<width>d"]. *)
Definition zfill (width n : nat) : string :=
  zeros (width - String.length (digits n)) ++ digits n.

(** [datetime.isoformat()]: [YYYY-MM-DDTHH:MM:SS], with [.ffffff] when the
    microseconds are not zero. *)
Definition isoformat (t : datetime) : string :=
  zfill 4 (year t) ++ "-" ++ zfill 2 (month t) ++ "-" ++ zfill 2 (day t)
  ++ "T" ++ zfill 2 (hour t) ++ ":" ++ zfill 2 (minute t) ++ ":"
  ++ zfill 2 (second t)
  ++ (if Nat.eqb (microsecond t) 0 then "" else "." ++ zfill 6 (microsecond t)).

(** What the interpreter and its libraries provide. [None] is the
    exception the call raises ([ValueError], [ParserError]). *)
Class PyRuntime : Type := {
  float_of_str : string -> option float;
  repr_float : float -> string;
  dateutil_parse : string -> option datetime
}.

(** [str(z)] for an [int]. *)
Definition str_int (z : Z) : string := NilZero.string_of_int (Z.to_int z).

Definition py_str `{PyRuntime} (v : pyval) : string :=
  match v with
  | PInt z => str_int z
  | PFloat x => repr_float x
  | PStr s => s
  end.

Fixpoint join (sep : string) (l : list string) : string :=
  match l with
  | [] => ""
  | [s] => s
  | s :: rest => s ++ sep ++ join sep rest
  end.

(** [str(l)] for a list of floats: ["[1.0, 2.0]"]. *)
Definition str_list `{PyRuntime} (l : list float) : string :=
  "[" ++ join ", " (map repr_float l) ++ "]".

(** [s.split(sep)] for a one-character separator. *)
Fixpoint split (sep : ascii) (s : string) : list string :=
  match s with
  | EmptyString => [EmptyString]
  | String c s' =>
      if Ascii.eqb c sep then EmptyString :: split sep s'
      else match split sep s' with
           | [] => [String c EmptyString]
           | tok :: rest => String c tok :: rest
           end
  end.

(** The lines a text file object iterates over, terminators kept. *)
Fixpoint readlines (s : string) : list string :=
  match s with
  | EmptyString => []
  | String c s' =>
      if Ascii.eqb c (ascii_of_nat 10) then String c EmptyString :: readlines s'
      else match readlines s' with
           | [] => [String c EmptyString]
           | l :: rest => String c l :: rest
           end
  end.

(** [l[z]] with Python's negative indices; [None] is [IndexError]. *)
Definition getitem {A : Type} (l : list A) (z : Z) : option A :=
  let n := Z.of_nat (List.length l) in
  if (0 <=? z)%Z then nth_error l (Z.to_nat z)
  else if (- n <=? z)%Z then nth_error l (Z.to_nat (n + z))
  else None.

(** ** The object *)

Record HallDataR : Type := mk_HallDataR {
  times : list datetime;
  diodevs : list float;
  currs : list float;
  fields : list float;
  ef_vs : list float;
  ef_os : list float;
  bf_vs : list float;
  bf_os : list float;
  ad_vs : list float;
  ad_os : list float;
  freqs : list float;
  (* set by [setup] and [set_current_limit]; [None]: no such attribute yet *)
  freq : option pyval;
  time_constant : option pyval;
  coil_constant : option pyval;
  current : option pyval
}.

(** The lists as [__init__] leaves them. *)
Definition init : HallDataR :=
  mk_HallDataR [] [] [] [] [] [] [] [] [] [] [] None None None None.

(** [self.data]: the ten column lists themselves, in this order. *)
Definition data (o : HallDataR) : list (list float) :=
  [diodevs o; currs o; fields o; ef_vs o; ef_os o;
   bf_vs o; bf_os o; ad_vs o; ad_os o; freqs o].

Definition time_constants : list pyval :=
  [PFloat 10e-6; PFloat 30e-6; PFloat 100e-6; PFloat 300e-6;
   PFloat 1e-3; PFloat 3e-3; PFloat 10e-3; PFloat 30e-3; PFloat 100e-3;
   PFloat 300e-3;
   PInt 1; PInt 3; PInt 10; PInt 30; PInt 100; PInt 300;
   PFloat 1e3; PFloat 3e3; PFloat 10e3; PFloat 30e3].

Definition sensitivities : list float :=
  [2e-9; 5e-9; 10e-9; 20e-9; 50e-9; 100e-9; 200e-9; 500e-9;
   1e-6; 2e-6; 5e-6; 10e-6; 20e-6; 50e-6; 100e-6; 200e-6; 500e-6;
   1e-3; 2e-3; 5e-3; 10e-3; 20e-3; 50e-3; 100e-3; 200e-3; 500e-3;
   1.0]%float.

(** ** The world *)

Inductive device : Type := lockin1 | lockin2 | lockin3 | dmm | mag_ctrl.

(** [self.lockins]. *)
Definition lockins : list device := [lockin1; lockin2; lockin3].

Inductive event : Type :=
| Write (d : device) (cmd : string)
| Query (d : device) (cmd : string) (reply : string)
| Sleep (secs : pyval)
| Now (t : datetime)
| FileAppend (filename : string) (text : string).

(** The instruments and the clock: what they answer after a given history. *)
Record Lab : Type := {
  respond : list event -> device -> string -> string;
  wall_clock : list event -> datetime
}.

Definition filesystem : Type := list (string * string).

Fixpoint read_file (fs : filesystem) (filename : string) : option string :=
  match fs with
  | [] => None
  | (n, c) :: rest => if String.eqb n filename then Some c else read_file rest filename
  end.

(** Opening in mode ["a"], writing [text] and closing: the file is created
    when it does not exist and never truncated. *)
Fixpoint append_file (fs : filesystem) (filename text : string) : filesystem :=
  match fs with
  | [] => [(filename, text)]
  | (n, c) :: rest =>
      if String.eqb n filename then (n, c ++ text) :: rest
      else (n, c) :: append_file rest filename text
  end.

Record World : Type := mk_World {
  self : HallDataR;
  trace : list event;
  files : filesystem
}.

Inductive outcome (A : Type) : Type :=
| Returned (a : A) (w : World)
| Raised (e : exn) (w : World)
| Looping.

Arguments Returned {A} a w.
Arguments Raised {A} e w.
Arguments Looping {A}.

Definition M (A : Type) : Type := World -> outcome A.

Definition ret {A : Type} (a : A) : M A := fun w => Returned a w.

Definition raise {A : Type} (e : exn) : M A := fun w => Raised e w.

Definition bind {A B : Type} (m : M A) (f : A -> M B) : M B :=
  fun w =>
    match m w with
    | Returned a w' => f a w'
    | Raised e w' => Raised e w'
    | Looping => Looping
    end.

Declare Scope py_scope.
Delimit Scope py_scope with py.
Notation "x <- c1 ;; c2" := (bind c1 (fun x => c2))
  (at level 61, c1 at next level, right associativity) : py_scope.
Notation "c1 ;; c2" := (bind c1 (fun _ => c2))
  (at level 61, right associativity) : py_scope.
Local Open Scope py_scope.

(** [for a in l: body]. *)
Fixpoint for_each {A : Type} (l : list A) (body : A -> M unit) : M unit :=
  match l with
  | [] => ret tt
  | a :: rest => body a ;; for_each rest body
  end.

(** [range(n)]. *)
Definition range (n : nat) : list Z := map Z.of_nat (seq 0 n).

Definition get_self : M HallDataR := fun w => Returned (self w) w.

Definition update_self (f : HallDataR -> HallDataR) : M unit :=
  fun w => Returned tt (mk_World (f (self w)) (trace w) (files w)).

Definition emit (e : event) : M unit :=
  fun w => Returned tt (mk_World (self w) (trace w ++ [e])%list (files w)).

(** [o.attr] for an attribute that may not have been set. *)
Definition getattr {A : Type} (name : string) (v : option A) : M A :=
  match v with
  | Some a => ret a
  | None => raise (AttributeError name)
  end.

(** Reading a local variable of the running function. *)
Definition load_local {A : Type} (name : string) (v : option A) : M A :=
  match v with
  | Some a => ret a
  | None => raise (UnboundLocalError name)
  end.

Definition index {A : Type} (l : list A) (z : Z) : M A :=
  match getitem l z with
  | Some a => ret a
  | None => raise IndexError
  end.

(** [l[v]] for any Python value [v]: only an [int] indexes a list. *)
Definition index_val {A : Type} (l : list A) (v : pyval) : M A :=
  match v with
  | PInt z => index l z
  | _ => raise TypeError
  end.

(** ["literal" + v]: [str] concatenates with [str] only. *)
Definition str_add (s : string) (v : pyval) : M string :=
  match v with
  | PStr t => ret (s ++ t)
  | _ => raise TypeError
  end.

(** [3 * v]: the [int] 3 times an [int], a [float] or a [str]. *)
Definition times3 (v : pyval) : pyval :=
  match v with
  | PInt z => PInt (3 * z)
  | PFloat x => PFloat (3 * x)%float
  | PStr s => PStr (s ++ s ++ s)
  end.

(** Updates of the attributes. *)
Definition with_times (f : list datetime -> list datetime) (o : HallDataR) : HallDataR :=
  mk_HallDataR (f (times o)) (diodevs o) (currs o) (fields o) (ef_vs o) (ef_os o)
    (bf_vs o) (bf_os o) (ad_vs o) (ad_os o) (freqs o)
    (freq o) (time_constant o) (coil_constant o) (current o).

Definition with_diodevs (f : list float -> list float) (o : HallDataR) : HallDataR :=
  mk_HallDataR (times o) (f (diodevs o)) (currs o) (fields o) (ef_vs o) (ef_os o)
    (bf_vs o) (bf_os o) (ad_vs o) (ad_os o) (freqs o)
    (freq o) (time_constant o) (coil_constant o) (current o).

Definition with_currs (f : list float -> list float) (o : HallDataR) : HallDataR :=
  mk_HallDataR (times o) (diodevs o) (f (currs o)) (fields o) (ef_vs o) (ef_os o)
    (bf_vs o) (bf_os o) (ad_vs o) (ad_os o) (freqs o)
    (freq o) (time_constant o) (coil_constant o) (current o).

Definition with_fields (f : list float -> list float) (o : HallDataR) : HallDataR :=
  mk_HallDataR (times o) (diodevs o) (currs o) (f (fields o)) (ef_vs o) (ef_os o)
    (bf_vs o) (bf_os o) (ad_vs o) (ad_os o) (freqs o)
    (freq o) (time_constant o) (coil_constant o) (current o).

Definition with_ef_vs (f : list float -> list float) (o : HallDataR) : HallDataR :=
  mk_HallDataR (times o) (diodevs o) (currs o) (fields o) (f (ef_vs o)) (ef_os o)
    (bf_vs o) (bf_os o) (ad_vs o) (ad_os o) (freqs o)
    (freq o) (time_constant o) (coil_constant o) (current o).

Definition with_bf_vs (f : list float -> list float) (o : HallDataR) : HallDataR :=
  mk_HallDataR (times o) (diodevs o) (currs o) (fields o) (ef_vs o) (ef_os o)
    (f (bf_vs o)) (bf_os o) (ad_vs o) (ad_os o) (freqs o)
    (freq o) (time_constant o) (coil_constant o) (current o).

Definition with_bf_os (f : list float -> list float) (o : HallDataR) : HallDataR :=
  mk_HallDataR (times o) (diodevs o) (currs o) (fields o) (ef_vs o) (ef_os o)
    (bf_vs o) (f (bf_os o)) (ad_vs o) (ad_os o) (freqs o)
    (freq o) (time_constant o) (coil_constant o) (current o).

Definition with_ad_vs (f : list float -> list float) (o : HallDataR) : HallDataR :=
  mk_HallDataR (times o) (diodevs o) (currs o) (fields o) (ef_vs o) (ef_os o)
    (bf_vs o) (bf_os o) (f (ad_vs o)) (ad_os o) (freqs o)
    (freq o) (time_constant o) (coil_constant o) (current o).

Definition with_freqs (f : list float -> list float) (o : HallDataR) : HallDataR :=
  mk_HallDataR (times o) (diodevs o) (currs o) (fields o) (ef_vs o) (ef_os o)
    (bf_vs o) (bf_os o) (ad_vs o) (ad_os o) (f (freqs o))
    (freq o) (time_constant o) (coil_constant o) (current o).

Definition set_freq_attr (v : pyval) (o : HallDataR) : HallDataR :=
  mk_HallDataR (times o) (diodevs o) (currs o) (fields o) (ef_vs o) (ef_os o)
    (bf_vs o) (bf_os o) (ad_vs o) (ad_os o) (freqs o)
    (Some v) (time_constant o) (coil_constant o) (current o).

Definition set_time_constant (v : pyval) (o : HallDataR) : HallDataR :=
  mk_HallDataR (times o) (diodevs o) (currs o) (fields o) (ef_vs o) (ef_os o)
    (bf_vs o) (bf_os o) (ad_vs o) (ad_os o) (freqs o)
    (freq o) (Some v) (coil_constant o) (current o).

Definition set_coil_constant (v : pyval) (o : HallDataR) : HallDataR :=
  mk_HallDataR (times o) (diodevs o) (currs o) (fields o) (ef_vs o) (ef_os o)
    (bf_vs o) (bf_os o) (ad_vs o) (ad_os o) (freqs o)
    (freq o) (time_constant o) (Some v) (current o).

Definition set_current (v : pyval) (o : HallDataR) : HallDataR :=
  mk_HallDataR (times o) (diodevs o) (currs o) (fields o) (ef_vs o) (ef_os o)
    (bf_vs o) (bf_os o) (ad_vs o) (ad_os o) (freqs o)
    (freq o) (time_constant o) (coil_constant o) (Some v).

(** [l.append(x)] and [l.clear()]. *)
Definition append {A : Type} (x : A) (l : list A) : list A := (l ++ [x])%list.
Definition clear {A : Type} (l : list A) : list A := [].

(** The list attributes of the object by name; [None]: no such attribute. *)
Definition column (o : HallDataR) (name : string) : option (list float) :=
  if String.eqb name "diodevs" then Some (diodevs o)
  else if String.eqb name "currs" then Some (currs o)
  else if String.eqb name "fields" then Some (fields o)
  else if String.eqb name "ef_vs" then Some (ef_vs o)
  else if String.eqb name "ef_os" then Some (ef_os o)
  else if String.eqb name "bf_vs" then Some (bf_vs o)
  else if String.eqb name "bf_os" then Some (bf_os o)
  else if String.eqb name "ad_vs" then Some (ad_vs o)
  else if String.eqb name "ad_os" then Some (ad_os o)
  else if String.eqb name "freqs" then Some (freqs o)
  else None.

(** Names bound at module level by the imports and the class statement,
    and the builtins the file calls. *)
Definition module_globals : list string :=
  ["visa"; "datetime"; "time"; "os"; "dateutil"; "HallDataR"].

Definition builtins : list string :=
  ["int"; "repr"; "str"; "float"; "len"; "range"; "enumerate"; "open"; "print"].

(** Reading a name that is not a local of the function: globals, then
    builtins, else [NameError]. *)
Definition load_global (name : string) : M unit :=
  if existsb (String.eqb name) (module_globals ++ builtins)%list then ret tt
  else raise (NameError name).

(** [enumerate(l)]. *)
Definition enumerate {A : Type} (l : list A) : list (Z * A) :=
  combine (range (List.length l)) l.

(** ** The methods *)

Section Methods.

Context {RT : PyRuntime} (lab : Lab).

(** [instrument.write(cmd)]. *)
Definition write (d : device) (cmd : string) : M unit := emit (Write d cmd).

(** [instrument.query(cmd)]: the command goes out, the reply is read. *)
Definition query (d : device) (cmd : string) : M string :=
  fun w =>
    let r := respond lab (trace w) d cmd in
    Returned r (mk_World (self w) (trace w ++ [Query d cmd r])%list (files w)).

(** [time.sleep(secs)]. *)
Definition sleep (secs : pyval) : M unit := emit (Sleep secs).

(** [datetime.datetime.now()]. *)
Definition now : M datetime :=
  fun w =>
    let t := wall_clock lab (trace w) in
    Returned t (mk_World (self w) (trace w ++ [Now t])%list (files w)).

(** [float(s)]. *)
Definition float_ (s : string) : M float :=
  match float_of_str s with
  | Some x => ret x
  | None => raise (ValueError s)
  end.

(** [dateutil.parser.parse(s)]. *)
Definition parse (s : string) : M datetime :=
  match dateutil_parse s with
  | Some t => ret t
  | None => raise (ParserError s)
  end.

(** [with open(filename, "a") as csv: body]: [body] yields the text it
    wrote to [csv]; the file exists from the [open] on, and is closed
    also when [body] raises (before its first write, in this file). *)
Definition with_open_a (filename : string) (body : M string) : M unit :=
  fun w =>
    match body w with
    | Returned text w' =>
        Returned tt (mk_World (self w') (trace w' ++ [FileAppend filename text])%list
                              (append_file (files w') filename text))
    | Raised e w' =>
        Raised e (mk_World (self w') (trace w' ++ [FileAppend filename ""])%list
                           (append_file (files w') filename ""))
    | Looping => Looping
    end.

(** The text one [write_line_to_csv] writes: the [csv.write] calls in
    order. [datum] is a whole column. *)
Definition csv_text (o : HallDataR) (t : datetime) : string :=
  let csv := isoformat t in
  let csv := csv ++ "," in
  let csv := fold_left (fun csv datum => (csv ++ str_list datum) ++ ",") (data o) csv in
  csv ++ newline.

Definition write_line_to_csv (filename : string) (i : Z) : M unit :=
  with_open_a filename (
    o <- get_self ;;
    t <- index (times o) i ;;
    ret (csv_text o t)).

Definition export_to_csv (filename : string) : M unit :=
  with_open_a filename (
    o <- get_self ;;
    for_each (range (List.length (times o)))
             (fun i => write_line_to_csv filename i) ;;
    ret "").

(** The body of [for line in csv]. *)
Definition import_line (line : string) : M unit :=
  let data := split "," line in
  let new_data := filter (fun value => negb (String.eqb value "")) data in
  s <- index new_data 0 ;;
  timestamp <- parse s ;;
  update_self (with_times (append timestamp)) ;;
  for_each (enumerate data) (fun '(i, datum) =>
    o <- get_self ;;
    _ <- getattr "datum" (column o "datum") ;;
    s <- index new_data i ;;
    _ <- float_ s ;;
    ret tt).

(** [data] is a local of [import_from_csv] (it is assigned in the loop),
    unbound when the second statement reads it. *)
Definition import_from_csv (filename : string) : M unit :=
  let data : option (list string) := None in
  update_self (with_times clear) ;;
  d <- load_local "data" data ;;
  for_each d (fun datum => raise (AttributeError "clear")) ;;
  fun w =>
    match read_file (files w) filename with
    | None => Raised (FileNotFoundError filename) w
    | Some csv => for_each (readlines csv) import_line w
    end.

Definition measure_diode : M float :=
  r <- query dmm "READ?" ;; float_ r.

Definition measure_r_lockin (lockin_num : Z) : M float :=
  d <- index lockins lockin_num ;; r <- query d "OUTP? 3" ;; float_ r.

Definition measure_o_lockin (lockin_num : Z) : M float :=
  d <- index lockins lockin_num ;; r <- query d "OUTP? 4" ;; float_ r.

Definition measure_frequency : M float :=
  r <- query lockin1 "FREQ?" ;; float_ r.

Definition measure_field : M float :=
  r <- query mag_ctrl "FIELD:MAG?" ;; float_ r.

Definition measure_current : M float :=
  r <- query mag_ctrl "CURR:MAG?" ;; float_ r.

Definition measure : M Z :=
  t <- now ;; update_self (with_times (append t)) ;;
  x <- measure_diode ;; update_self (with_diodevs (append x)) ;;
  x <- measure_current ;; update_self (with_currs (append x)) ;;
  x <- measure_field ;; update_self (with_fields (append x)) ;;
  x <- measure_r_lockin 0 ;; update_self (with_bf_vs (append x)) ;;
  x <- measure_o_lockin 0 ;; update_self (with_bf_os (append x)) ;;
  x <- measure_r_lockin 1 ;; update_self (with_ef_vs (append x)) ;;
  x <- measure_o_lockin 1 ;; update_self (with_ef_vs (append x)) ;;
  x <- measure_r_lockin 2 ;; update_self (with_ad_vs (append x)) ;;
  x <- measure_o_lockin 2 ;; update_self (with_ad_vs (append x)) ;;
  x <- measure_frequency ;; update_self (with_freqs (append x)) ;;
  o <- get_self ;;
  ret (Z.of_nat (List.length (times o)) - 1)%Z.

Definition setup (freq' time_constant' : pyval) : M unit :=
  update_self (set_freq_attr freq') ;;
  update_self (set_time_constant time_constant') ;;
  update_self (set_coil_constant (PFloat 0.06914)) ;;
  for_each lockins (fun lockin =>
    write lockin "*RST" ;;
    write lockin "OUTX 1" ;;
    write lockin "ISRC 1" ;;
    write lockin "IGND 1" ;;
    write lockin "ICPL 1" ;;
    o <- get_self ;;
    tc <- getattr "time_constant" (time_constant o) ;;
    cmd <- str_add "OFLT " (PStr (py_str tc)) ;;
    write lockin cmd) ;;
  write lockin1 "FMOD 1" ;;
  write lockin2 "FMOD 0" ;;
  write lockin3 "FMOD 2" ;;
  o <- get_self ;;
  f <- getattr "freq" (freq o) ;;
  cmd <- str_add "FREQ " (PStr (py_str f)) ;;
  write lockin1 cmd ;;
  write lockin1 "SLVL 1.0" ;;
  write lockin1 "SENS 26" ;;
  write dmm "*RST" ;;
  write dmm "CONF:VOLT:AC" ;;
  write mag_ctrl "CONF:CURR:MAX 72" ;;
  o <- get_self ;;
  k <- getattr "coil_constant" (coil_constant o) ;;
  cmd <- str_add "CONF:COIL " k ;;
  write mag_ctrl cmd ;;
  write mag_ctrl "CONF:FIELD:UNITS:1" ;;
  write mag_ctrl "CONF:PS 1" ;;
  write mag_ctrl "CONF:PS:CURR 53" ;;
  write mag_ctrl "PS 1" ;;
  write mag_ctrl "CONF:STAB 50".

Definition set_current_limit (current : pyval) : M unit :=
  update_self (set_current current) ;;
  load_global "mag_ctrl" ;;
  cmd <- str_add "CONF:CURR:PROG " current ;;
  write mag_ctrl cmd.

(** The [while] loop of [change_field]: at most [fuel] evaluations of
    its condition; [or] reads the field a second time only when the
    first comparison is false. *)
Fixpoint poll_field (fuel : nat) (field : float) : M unit :=
  match fuel with
  | O => fun _ => Looping
  | S fuel' =>
      r <- query mag_ctrl "FIELD:MAG?" ;;
      x <- float_ r ;;
      if (1.1 * field <? x)%float then poll_field fuel' field
      else
        r <- query mag_ctrl "FIELD:MAG?" ;;
        x <- float_ r ;;
        if (x <? 0.9 * field)%float then poll_field fuel' field
        else ret tt
  end.

Definition change_field (fuel : nat) (field : float) : M unit :=
  write mag_ctrl ("CONF:FIELD:PROG " ++ py_str (PFloat field)) ;;
  write mag_ctrl "RAMP" ;;
  poll_field fuel field ;;
  sleep (PFloat 0.5) ;;
  write mag_ctrl "PAUSE".

(** The body of [for _ in range(5)]. *)
Definition sample_once (filename : string) : M unit :=
  o <- get_self ;;
  tc <- getattr "time_constant" (time_constant o) ;;
  c <- index_val time_constants tc ;;
  sleep (times3 c) ;;
  index <- measure ;;
  write_line_to_csv filename index.

(** [starttime = time.time()] reads the clock into a local that is never
    used; it leaves no event. *)
Definition multi_measure (fuel : nat) (fields : list float) (filename : string) : M unit :=
  for_each fields (fun field =>
    change_field fuel field ;;
    for_each (range 5) (fun _ => sample_once filename)) ;;
  write mag_ctrl ("CONF:CURR:PROG " ++ py_str (PInt 0)).

End Methods.

(** ** Properties of stores, traces and labs *)

(** The invariant of the sample store: every column is as long as [times]. *)
Definition equal_lengths (o : HallDataR) : Prop :=
  Forall (fun datum => List.length datum = List.length (times o)) (data o).

(** The store as [__init__] leaves it: every list empty. *)
Definition fresh (o : HallDataR) : Prop :=
  times o = [] /\ Forall (fun datum => datum = []) (data o).

Definition is_query (e : event) : bool :=
  match e with
  | Query _ _ _ => true
  | _ => false
  end.

(** A trace without the queries: commands, sleeps, clock readings and
    file writes, in order. *)
Definition observable (tr : list event) : list event :=
  filter (fun e => negb (is_query e)) tr.

(** The commands written to device [d], in order. *)
Definition written (d : device) (tr : list event) : list string :=
  flat_map (fun e =>
    match e with
    | Write d' cmd =>
        match d, d' with
        | lockin1, lockin1 | lockin2, lockin2 | lockin3, lockin3
        | dmm, dmm | mag_ctrl, mag_ctrl => [cmd]
        | _, _ => []
        end
    | _ => []
    end) tr.

(** The texts appended to [filename], in order. *)
Definition appended (filename : string) (tr : list event) : list string :=
  flat_map (fun e =>
    match e with
    | FileAppend n text => if String.eqb n filename then [text] else []
    | _ => []
    end) tr.

(** The field readings the magnet controller gave, in order. *)
Definition field_readings (tr : list event) : list string :=
  flat_map (fun e =>
    match e with
    | Query mag_ctrl cmd reply => if String.eqb cmd "FIELD:MAG?" then [reply] else []
    | _ => []
    end) tr.

Definition field_prog (e : event) : option string :=
  match e with
  | Write mag_ctrl cmd => if prefix "CONF:FIELD:PROG " cmd then Some cmd else None
  | _ => None
  end.

(** The last field-programming command the magnet controller received. *)
Fixpoint last_field_cmd (tr : list event) : option string :=
  match tr with
  | [] => None
  | e :: rest =>
      match last_field_cmd rest with
      | Some cmd => Some cmd
      | None => field_prog e
      end
  end.

(** [x] is within the band the polling loop of [change_field] tests. *)
Definition in_band (field x : float) : bool :=
  (negb (1.1 * field <? x) && negb (x <? 0.9 * field))%float.

Section LabProperties.

Context {RT : PyRuntime} (lab : Lab).

(** Every reply of every instrument reads as a float. *)
Definition replies_parse : Prop :=
  forall tr d cmd, exists x, float_of_str (respond lab tr d cmd) = Some x.

(** The magnet controller reports a field within the band of the target
    it was last programmed to, for the targets of a sweep. *)
Definition settled (targets : list float) : Prop :=
  forall tr field,
    In field targets ->
    last_field_cmd tr = Some ("CONF:FIELD:PROG " ++ repr_float field) ->
    exists x, float_of_str (respond lab tr mag_ctrl "FIELD:MAG?") = Some x
              /\ in_band field x = true.

(** Worlds reached from a fresh store by [n] calls to [measure], each of
    which returned or raised. *)
Inductive after_calls : nat -> World -> Prop :=
| calls_fresh : forall w, fresh (self w) -> after_calls 0 w
| calls_returned : forall n w i w',
    after_calls n w -> measure lab w = Returned i w' -> after_calls (S n) w'
| calls_raised : forall n w e w',
    after_calls n w -> measure lab w = Raised e w' -> after_calls (S n) w'.


(** [serializeRow] as the specification words it: the timestamp, then the
    i-th value of every column, each followed by a comma, then a newline. *)
Definition serializeRow_spec (o : HallDataR) (i : Z) : option string :=
  match getitem (times o) i with
  | None => None
  | Some t =>
      let cell (datum : list float) :=
        match getitem datum i with
        | Some x => Some (repr_float x ++ ",")
        | None => None
        end in
      match fold_right (fun datum acc =>
               match cell datum, acc with
               | Some c, Some rest => Some (c ++ rest)
               | _, _ => None
               end) (Some "") (data o) with
      | Some cells => Some (isoformat t ++ "," ++ cells ++ newline)
      | None => None
      end
  end.

End LabProperties.

(** ** Sample instruments and runtime *)

Module Sample.

(** CPython's [float] and [repr] on the literals used below. *)
Definition float_table : list (string * float) :=
  [("0.1", 0.1); ("0.2", 0.2); ("1.0", 1.0); ("2.0", 2.0)]%float.

Definition table_float_of_str (s : string) : option float :=
  match find (fun p => String.eqb (fst p) s) float_table with
  | Some p => Some (snd p)
  | None => None
  end.

Definition table_repr_float (x : float) : string :=
  match find (fun p => PrimFloat.eqb (snd p) x) float_table with
  | Some p => fst p
  | None => "nan"
  end.

Definition new_year : datetime := mk_datetime 2024 1 1 0 0 0 0.

Definition table_parse (s : string) : option datetime :=
  if String.eqb s "2024-01-01T00:00:00" then Some new_year else None.

#[export] Instance runtime : PyRuntime := {
  float_of_str := table_float_of_str;
  repr_float := table_repr_float;
  dateutil_parse := table_parse
}.

(** The clock advances one second per event (for less than an hour). *)
Definition ticking (tr : list event) : datetime :=
  mk_datetime 2024 1 1 0 (List.length tr / 60) (List.length tr mod 60) 0.

(** Every instrument answers ["1.0"] to every query. *)
Definition steady_lab : Lab :=
  {| respond := fun _ _ _ => "1.0"; wall_clock := fun _ => new_year |}.

(** The magnet controller reports the target it was last programmed to
    (0.1 before any programming); the other instruments answer alike. *)
Definition tracking_lab : Lab :=
  {| respond := fun tr _ _ =>
       match last_field_cmd tr with
       | Some cmd => if String.eqb cmd "CONF:FIELD:PROG 0.2" then "0.2" else "0.1"
       | None => "0.1"
       end;
     wall_clock := ticking |}.

(** The field reads 1.0 the first time it is asked and 2.0 from then on. *)
Definition overshoot_lab : Lab :=
  {| respond := fun tr _ _ => if existsb is_query tr then "2.0" else "1.0";
     wall_clock := ticking |}.

(** A world just after [__init__], with no file. *)
Definition start : World := mk_World init [] [].


(** The world after one call to [measure] in [start]. *)
Definition after_one : World :=
  match measure steady_lab start with
  | Returned _ w => w
  | _ => start
  end.

(** A store of one row that satisfies the invariant, every value 1.0. *)
Definition one_row : World :=
  let c := [1.0%float] in
  mk_World (mk_HallDataR [new_year] c c c c c c c c c c None None None None) [] [].

End Sample.

(** ** Reasoning about methods *)

(** Partial correctness with an exceptional postcondition: if [m] returns
    then [Q] holds, if it raises then [E] holds. *)
Definition sat {A : Type} (m : M A) (w : World)
           (Q : A -> World -> Prop) (E : exn -> World -> Prop) : Prop :=
  match m w with
  | Returned a w' => Q a w'
  | Raised e w' => E e w'
  | Looping => True
  end.

(** Total correctness: [m] returns, and [Q] holds then. *)
Definition returns {A : Type} (m : M A) (w : World) (Q : A -> World -> Prop) : Prop :=
  exists a w', m w = Returned a w' /\ Q a w'.

(** [m] raises, and [E] holds then. *)
Definition raises {A : Type} (m : M A) (w : World) (E : exn -> World -> Prop) : Prop :=
  exists e w', m w = Raised e w' /\ E e w'.

Definition queries (evs : list event) : Prop := Forall (fun e => is_query e = true) evs.

(** What one returning call to [measure] does to the world [w]. *)
Definition measured (lab : Lab) (w : World) (i : Z) (w' : World) : Prop :=
  let o := self w in
  let o' := self w' in
  i = Z.of_nat (List.length (times o))
  /\ times o' = (times o ++ [wall_clock lab (trace w)])%list
  /\ List.length (diodevs o') = S (List.length (diodevs o))
  /\ List.length (currs o') = S (List.length (currs o))
  /\ List.length (fields o') = S (List.length (fields o))
  /\ List.length (ef_vs o') = S (S (List.length (ef_vs o)))
  /\ ef_os o' = ef_os o
  /\ List.length (bf_vs o') = S (List.length (bf_vs o))
  /\ List.length (bf_os o') = S (List.length (bf_os o))
  /\ List.length (ad_vs o') = S (S (List.length (ad_vs o)))
  /\ ad_os o' = ad_os o
  /\ List.length (freqs o') = S (List.length (freqs o))
  /\ time_constant o' = time_constant o
  /\ files w' = files w
  /\ exists qs, trace w' = (trace w ++ Now (wall_clock lab (trace w)) :: qs)%list
                /\ queries qs.

(** The commands [setup] sends before it reaches the coil constant: the
    six commands of each lock-in, the reference modes, frequency, amplitude
    and sensitivity, the multimeter, and the magnet's maximal current. *)
Definition lockin_commands (lockin : device) (n : string) : list event :=
  [Write lockin "*RST"; Write lockin "OUTX 1"; Write lockin "ISRC 1";
   Write lockin "IGND 1"; Write lockin "ICPL 1"; Write lockin ("OFLT " ++ n)].

Definition setup_sent (f n : string) : list event :=
  (lockin_commands lockin1 n ++ lockin_commands lockin2 n ++ lockin_commands lockin3 n
   ++ [Write lockin1 "FMOD 1"; Write lockin2 "FMOD 0"; Write lockin3 "FMOD 2";
       Write lockin1 ("FREQ " ++ f); Write lockin1 "SLVL 1.0"; Write lockin1 "SENS 26";
       Write dmm "*RST"; Write dmm "CONF:VOLT:AC";
       Write mag_ctrl "CONF:CURR:MAX 72"])%list.

(** The magnet commands of [setup] that follow: the claimed rest of the
    sequence. *)
Definition setup_unsent (k : string) : list string :=
  ["CONF:COIL " ++ k; "CONF:FIELD:UNITS:1"; "CONF:PS 1"; "CONF:PS:CURR 53";
   "PS 1"; "CONF:STAB 50"].

(** ** Further methods and notions *)

(** [self._open_gpib_num(address, gpib)]: the resource name it passes to
    [open_resource], for integer arguments ([repr] of an [int] is its
    decimal form). *)
Definition _open_gpib_num (address gpib : Z) : string :=
  "GPIB" ++ str_int gpib ++ "::" ++ str_int address ++ "::INSTR".

(** The text of a file, empty when the file does not exist. *)
Definition contents (fs : filesystem) (filename : string) : string :=
  match read_file fs filename with
  | Some text => text
  | None => ""
  end.

(** Lines one after the other. *)
Definition text_of (lines : list string) : string :=
  fold_right String.append "" lines.

(** The ten queries of [measure], in the order it sends them. *)
Definition measure_queries : list (device * string) :=
  [(dmm, "READ?"); (mag_ctrl, "CURR:MAG?"); (mag_ctrl, "FIELD:MAG?");
   (lockin1, "OUTP? 3"); (lockin1, "OUTP? 4");
   (lockin2, "OUTP? 3"); (lockin2, "OUTP? 4");
   (lockin3, "OUTP? 3"); (lockin3, "OUTP? 4");
   (lockin1, "FREQ?")].

Definition asked (q : device * string) (reply : string) : event :=
  Query (fst q) (snd q) reply.

Section FurtherMethods.

Context {RT : PyRuntime} (lab : Lab).

(** The [while] loop of [change_current]: as in [change_field], with the
    current instead of the field and a sleep of 0.1 s in its body. *)
Fixpoint poll_current (fuel : nat) (amps : float) : M unit :=
  match fuel with
  | O => fun _ => Looping
  | S fuel' =>
      r <- query lab mag_ctrl "CURR:MAG?" ;;
      x <- float_ r ;;
      if (1.1 * amps <? x)%float then sleep (PFloat 0.1) ;; poll_current fuel' amps
      else
        r <- query lab mag_ctrl "CURR:MAG?" ;;
        x <- float_ r ;;
        if (x <? 0.9 * amps)%float then sleep (PFloat 0.1) ;; poll_current fuel' amps
        else ret tt
  end.

Definition change_current (fuel : nat) (amps : float) : M unit :=
  write mag_ctrl ("CONF:CURR:PROG " ++ py_str (PFloat amps)) ;;
  write mag_ctrl "RAMP" ;;
  poll_current fuel amps ;;
  sleep (PFloat 0.5) ;;
  write mag_ctrl "PAUSE".

(** Worlds reached from a fresh store by [n] calls to [measure] that all
    returned. *)
Inductive after_measures : nat -> World -> Prop :=
| measures_fresh : forall w, fresh (self w) -> after_measures 0 w
| measures_next : forall n w i w',
    after_measures n w -> measure lab w = Returned i w' -> after_measures (S n) w'.

End FurtherMethods.

Module MoreSamples.

(** No reply reads as a float. *)
Definition garbled_lab : Lab :=
  {| respond := fun _ _ _ => "n/a"; wall_clock := fun _ => Sample.new_year |}.

(** Every reading is 2.0, whatever was asked for. *)
Definition stuck_lab : Lab :=
  {| respond := fun _ _ _ => "2.0"; wall_clock := fun _ => Sample.new_year |}.

(** A world with a log file already written to. *)
Definition logged : World :=
  mk_World (self Sample.after_one) [] [("log.csv", "header" ++ newline)].

End MoreSamples.

(** * Lemmas *)

Lemma sat_ret {A : Type} (a : A) w Q E : Q a w -> sat (ret a) w Q E.
Proof. exact (fun H => H). Qed.

Lemma sat_raise {A : Type} e w (Q : A -> World -> Prop) E :
  E e w -> sat (raise e) w Q E.
Proof. exact (fun H => H). Qed.

Lemma sat_bind {A B : Type} (m : M A) (f : A -> M B) w Q E :
  sat m w (fun a w1 => sat (f a) w1 Q E) E -> sat (bind m f) w Q E.
Proof.
  unfold sat, bind. destruct (m w); auto.
Qed.

Lemma sat_weaken {A : Type} (m : M A) w (Q Q' : A -> World -> Prop) (E E' : exn -> World -> Prop) :
  sat m w Q E ->
  (forall a w', Q a w' -> Q' a w') -> (forall e w', E e w' -> E' e w') ->
  sat m w Q' E'.
Proof.
  unfold sat. destruct (m w); auto.
Qed.

Lemma sat_returned {A : Type} (m : M A) w Q E a w' :
  sat m w Q E -> m w = Returned a w' -> Q a w'.
Proof. unfold sat. intros H Hm. now rewrite Hm in H. Qed.

Lemma sat_raised {A : Type} (m : M A) w Q E e w' :
  sat m w Q E -> m w = Raised e w' -> E e w'.
Proof. unfold sat. intros H Hm. now rewrite Hm in H. Qed.

Lemma sat_emit ev w Q E :
  Q tt (mk_World (self w) (trace w ++ [ev]) (files w)) -> sat (emit ev) w Q E.
Proof. exact (fun H => H). Qed.

Lemma sat_update_self f w Q E :
  Q tt (mk_World (f (self w)) (trace w) (files w)) -> sat (update_self f) w Q E.
Proof. exact (fun H => H). Qed.

Lemma sat_get_self w Q E : Q (self w) w -> sat get_self w Q E.
Proof. exact (fun H => H). Qed.

Lemma returns_ret {A : Type} (a : A) w (Q : A -> World -> Prop) : Q a w -> returns (ret a) w Q.
Proof. intros H. exists a, w. now split. Qed.

Lemma returns_bind {A B : Type} (m : M A) (f : A -> M B) w Q :
  returns m w (fun a w1 => returns (f a) w1 Q) -> returns (bind m f) w Q.
Proof.
  intros (a & w1 & Hm & b & w2 & Hf & HQ).
  exists b, w2. split; [| exact HQ]. unfold bind. now rewrite Hm.
Qed.

Lemma returns_weaken {A : Type} (m : M A) w (Q Q' : A -> World -> Prop) :
  returns m w Q -> (forall a w', Q a w' -> Q' a w') -> returns m w Q'.
Proof. intros (a & w' & Hm & HQ) H. exists a, w'. auto. Qed.

Lemma returns_sat {A : Type} (m : M A) w (Q Q' : A -> World -> Prop) E :
  returns m w Q -> sat m w Q' E -> returns m w (fun a w' => Q a w' /\ Q' a w').
Proof.
  intros (a & w' & Hm & HQ) Hs. exists a, w'. repeat split; auto.
  eapply sat_returned; eauto.
Qed.

Lemma returns_emit ev w (Q : unit -> World -> Prop) :
  Q tt (mk_World (self w) (trace w ++ [ev]) (files w)) -> returns (emit ev) w Q.
Proof. intros H. eexists _, _. split; [reflexivity | exact H]. Qed.

Lemma returns_update_self f w (Q : unit -> World -> Prop) :
  Q tt (mk_World (f (self w)) (trace w) (files w)) -> returns (update_self f) w Q.
Proof. intros H. eexists _, _. split; [reflexivity | exact H]. Qed.

Lemma returns_get_self w (Q : HallDataR -> World -> Prop) :
  Q (self w) w -> returns get_self w Q.
Proof. intros H. eexists _, _. split; [reflexivity | exact H]. Qed.


Lemma raises_raise {A : Type} e w (E : exn -> World -> Prop) :
  E e w -> raises (@raise A e) w E.
Proof. intros H. exists e, w. now split. Qed.

Lemma raises_bind {A B : Type} (m : M A) (f : A -> M B) w E :
  returns m w (fun a w1 => raises (f a) w1 E) -> raises (bind m f) w E.
Proof.
  intros (a & w1 & Hm & e & w2 & Hf & HE).
  exists e, w2. split; [| exact HE]. unfold bind. now rewrite Hm.
Qed.

Lemma raises_bind_left {A B : Type} (m : M A) (f : A -> M B) w E :
  raises m w E -> raises (bind m f) w E.
Proof.
  intros (e & w1 & Hm & HE).
  exists e, w1. split; [| exact HE]. unfold bind. now rewrite Hm.
Qed.

Section Rules.

Context {RT : PyRuntime} (lab : Lab).

Lemma sat_query d cmd w Q E :
  Q (respond lab (trace w) d cmd)
    (mk_World (self w) (trace w ++ [Query d cmd (respond lab (trace w) d cmd)]) (files w)) ->
  sat (query lab d cmd) w Q E.
Proof. exact (fun H => H). Qed.

Lemma sat_now w Q E :
  Q (wall_clock lab (trace w))
    (mk_World (self w) (trace w ++ [Now (wall_clock lab (trace w))]) (files w)) ->
  sat (now lab) w Q E.
Proof. exact (fun H => H). Qed.

Lemma sat_float s w (Q : float -> World -> Prop) (E : exn -> World -> Prop) :
  (forall x, float_of_str s = Some x -> Q x w) ->
  (float_of_str s = None -> E (ValueError s) w) ->
  sat (float_ s) w Q E.
Proof.
  intros HQ HE. unfold sat, float_.
  destruct (float_of_str s) as [x|]; cbn; auto.
Qed.

Lemma returns_query d cmd w (Q : string -> World -> Prop) :
  Q (respond lab (trace w) d cmd)
    (mk_World (self w) (trace w ++ [Query d cmd (respond lab (trace w) d cmd)]) (files w)) ->
  returns (query lab d cmd) w Q.
Proof. intros H. eexists _, _. split; [reflexivity | exact H]. Qed.

Lemma returns_now w (Q : datetime -> World -> Prop) :
  Q (wall_clock lab (trace w))
    (mk_World (self w) (trace w ++ [Now (wall_clock lab (trace w))]) (files w)) ->
  returns (now lab) w Q.
Proof. intros H. eexists _, _. split; [reflexivity | exact H]. Qed.

Lemma returns_float s x w (Q : float -> World -> Prop) :
  float_of_str s = Some x -> Q x w -> returns (float_ s) w Q.
Proof.
  intros Hs HQ. exists x, w. split; [| exact HQ].
  unfold float_. now rewrite Hs.
Qed.

(** A reading: one query, its reply read as a float. The rules forget
    which reply it was. *)
Lemma returns_reading d cmd w (Q : float -> World -> Prop) :
  replies_parse lab ->
  (forall x r, Q x (mk_World (self w) (trace w ++ [Query d cmd r]) (files w))) ->
  returns (r <- query lab d cmd ;; float_ r) w Q.
Proof.
  intros Hp HQ. apply returns_bind, returns_query.
  destruct (Hp (trace w) d cmd) as [x Hx].
  eapply returns_float; eauto.
Qed.

Lemma sat_reading d cmd w (Q : float -> World -> Prop) (E : exn -> World -> Prop) :
  (forall x r, Q x (mk_World (self w) (trace w ++ [Query d cmd r]) (files w))) ->
  (forall e r, E e (mk_World (self w) (trace w ++ [Query d cmd r]) (files w))) ->
  sat (r <- query lab d cmd ;; float_ r) w Q E.
Proof.
  intros HQ HE. apply sat_bind, sat_query, sat_float; auto.
Qed.

(** The lock-in a constant index selects. *)
Lemma measure_r_lockin_0 :
  measure_r_lockin lab 0 = (r <- query lab lockin1 "OUTP? 3" ;; float_ r).
Proof. reflexivity. Qed.

Lemma measure_r_lockin_1 :
  measure_r_lockin lab 1 = (r <- query lab lockin2 "OUTP? 3" ;; float_ r).
Proof. reflexivity. Qed.

Lemma measure_r_lockin_2 :
  measure_r_lockin lab 2 = (r <- query lab lockin3 "OUTP? 3" ;; float_ r).
Proof. reflexivity. Qed.

Lemma measure_o_lockin_0 :
  measure_o_lockin lab 0 = (r <- query lab lockin1 "OUTP? 4" ;; float_ r).
Proof. reflexivity. Qed.

Lemma measure_o_lockin_1 :
  measure_o_lockin lab 1 = (r <- query lab lockin2 "OUTP? 4" ;; float_ r).
Proof. reflexivity. Qed.

Lemma measure_o_lockin_2 :
  measure_o_lockin lab 2 = (r <- query lab lockin3 "OUTP? 4" ;; float_ r).
Proof. reflexivity. Qed.

End Rules.

Ltac sat_step :=
  lazymatch goal with
  | |- sat (bind (query _ _ _) _) _ _ _ =>
      first [ apply sat_reading; [intros ? ? | intros ? ?]
            | apply sat_bind ]
  | |- sat (bind _ _) _ _ _ => apply sat_bind
  | |- sat (query _ _ _) _ _ _ => apply sat_query
  | |- sat (now _) _ _ _ => apply sat_now
  | |- sat (update_self _) _ _ _ => apply sat_update_self
  | |- sat get_self _ _ _ => apply sat_get_self
  | |- sat (emit _) _ _ _ => apply sat_emit
  | |- sat (ret _) _ _ _ => apply sat_ret
  end;
  cbv beta; cbn [self trace files].

Ltac returns_step Hparse :=
  lazymatch goal with
  | |- returns (bind (query _ _ _) _) _ _ =>
      first [ apply (returns_reading _ _ _ _ _ Hparse); intros ? ?
            | apply returns_bind ]
  | |- returns (bind _ _) _ _ => apply returns_bind
  | |- returns (query _ _ _) _ _ => apply returns_query
  | |- returns (now _) _ _ => apply returns_now
  | |- returns (update_self _) _ _ => apply returns_update_self
  | |- returns get_self _ _ => apply returns_get_self
  | |- returns (emit _) _ _ => apply returns_emit
  | |- returns (ret _) _ _ => apply returns_ret
  end;
  cbv beta; cbn [self trace files].

Section Measure.

Context {RT : PyRuntime} (lab : Lab).

Lemma queries_nil : queries [].
Proof. constructor. Qed.

Lemma queries_cons d cmd r evs : queries evs -> queries (Query d cmd r :: evs).
Proof. intros H. constructor; [reflexivity | exact H]. Qed.

Lemma measure_unfold :
  measure lab =
  (t <- now lab ;; update_self (with_times (append t)) ;;
   x <- (r <- query lab dmm "READ?" ;; float_ r) ;; update_self (with_diodevs (append x)) ;;
   x <- (r <- query lab mag_ctrl "CURR:MAG?" ;; float_ r) ;; update_self (with_currs (append x)) ;;
   x <- (r <- query lab mag_ctrl "FIELD:MAG?" ;; float_ r) ;; update_self (with_fields (append x)) ;;
   x <- (r <- query lab lockin1 "OUTP? 3" ;; float_ r) ;; update_self (with_bf_vs (append x)) ;;
   x <- (r <- query lab lockin1 "OUTP? 4" ;; float_ r) ;; update_self (with_bf_os (append x)) ;;
   x <- (r <- query lab lockin2 "OUTP? 3" ;; float_ r) ;; update_self (with_ef_vs (append x)) ;;
   x <- (r <- query lab lockin2 "OUTP? 4" ;; float_ r) ;; update_self (with_ef_vs (append x)) ;;
   x <- (r <- query lab lockin3 "OUTP? 3" ;; float_ r) ;; update_self (with_ad_vs (append x)) ;;
   x <- (r <- query lab lockin3 "OUTP? 4" ;; float_ r) ;; update_self (with_ad_vs (append x)) ;;
   x <- (r <- query lab lockin1 "FREQ?" ;; float_ r) ;; update_self (with_freqs (append x)) ;;
   o <- get_self ;;
   ret (Z.of_nat (List.length (times o)) - 1)%Z)%py.
Proof. reflexivity. Qed.

(** Whatever the instruments answer: a call that returns did [measured];
    a call that raises has appended its timestamp all the same. *)
Lemma measure_sat w :
  sat (measure lab) w (measured lab w)
      (fun _ w' => times (self w') = (times (self w) ++ [wall_clock lab (trace w)])%list).
Proof.
  rewrite measure_unfold.
  repeat sat_step; try reflexivity.
  unfold measured. cbv zeta.
  cbn [self trace files times diodevs currs fields ef_vs ef_os bf_vs bf_os ad_vs ad_os
       freqs time_constant with_times with_diodevs with_currs with_fields with_ef_vs
       with_bf_vs with_bf_os with_ad_vs with_freqs].
  unfold append. rewrite !length_app. cbn [List.length].
  repeat split; try lia.
  eexists. split.
  - repeat rewrite <- app_assoc. cbn [app]. reflexivity.
  - repeat apply queries_cons. apply queries_nil.
Qed.

Lemma measure_returns w :
  replies_parse lab -> returns (measure lab) w (measured lab w).
Proof.
  intros Hp.
  apply returns_weaken with
    (Q := fun i w' => True /\ measured lab w i w'); [| tauto].
  apply returns_sat with
    (E := fun _ w' => times (self w') = (times (self w) ++ [wall_clock lab (trace w)])%list);
    [| apply measure_sat].
  rewrite measure_unfold.
  repeat returns_step Hp. exact I.
Qed.

End Measure.

(** * The sample store *)

Section Store.

Context {RT : PyRuntime} (lab : Lab).

Lemma equal_lengths_ef o :
  equal_lengths o -> List.length (ef_vs o) = List.length (ef_os o).
Proof.
  unfold equal_lengths, data. intros H.
  repeat match goal with
         | H : Forall _ (_ :: _) |- _ => inversion H; subst; clear H
         end.
  congruence.
Qed.

(** C1: after a call to [measure] the columns of the store should all have
    the same length. They never do: a call that returns leaves [ef_vs] two
    entries longer and [ef_os] as it was, so a store whose columns had equal
    lengths before has not after (code_bug). *)
Theorem measure_breaks_equal_lengths w i w' :
  equal_lengths (self w) ->
  measure lab w = Returned i w' ->
  List.length (ef_vs (self w')) = 2 + List.length (ef_os (self w'))
  /\ ~ equal_lengths (self w').
Proof.
  intros Heq Hm.
  pose proof (sat_returned _ _ _ _ _ _ (measure_sat lab w) Hm) as Hd.
  unfold measured in Hd; cbv zeta in Hd.
  destruct Hd as (_ & _ & _ & _ & _ & Hef & Hos & _).
  apply equal_lengths_ef in Heq.
  assert (Hlen : List.length (ef_vs (self w')) = 2 + List.length (ef_os (self w'))).
  { rewrite Hef, Hos, Heq. reflexivity. }
  split; [exact Hlen |].
  intros Heq'. apply equal_lengths_ef in Heq'. lia.
Qed.

Lemma after_calls_times n w :
  after_calls lab n w -> List.length (times (self w)) = n.
Proof.
  induction 1 as [w [Ht _] | n w i w' _ IH Hm | n w e w' _ IH Hm].
  - now rewrite Ht.
  - pose proof (sat_returned _ _ _ _ _ _ (measure_sat lab w) Hm) as Hd.
    destruct Hd as (_ & Ht & _). rewrite Ht, length_app. cbn. lia.
  - pose proof (sat_raised _ _ _ _ _ _ (measure_sat lab w) Hm) as Ht.
    cbv beta in Ht. rewrite Ht, length_app. cbn. lia.
Qed.

(** C9: [measure] returns the index of the row it appended, the length of
    [times] after the append minus one. After [n] earlier calls on a fresh
    store (each returned or raised) that index is [n]: it is the [n+1]-th
    call. And the call does return when every reply reads as a float. *)
Theorem measure_returns_row_index n w :
  after_calls lab n w ->
  (forall i w', measure lab w = Returned i w' ->
                i = Z.of_nat n
                /\ i = (Z.of_nat (List.length (times (self w'))) - 1)%Z)
  /\ (replies_parse lab -> exists w', measure lab w = Returned (Z.of_nat n) w').
Proof.
  intros Hn. pose proof (after_calls_times n w Hn) as Hlen. split.
  - intros i w' Hm.
    pose proof (sat_returned _ _ _ _ _ _ (measure_sat lab w) Hm) as Hd.
    destruct Hd as (Hi & Ht & _).
    rewrite Ht, length_app, Hi, Hlen. cbn. split; lia.
  - intros Hp. destruct (measure_returns lab w Hp) as (i & w' & Hm & Hd).
    destruct Hd as (Hi & _). exists w'. now rewrite Hm, Hi, Hlen.
Qed.

End Store.

(** * Configuration *)

Section Configuration.

Context {RT : PyRuntime}.

(** C7: [setup] should send its whole command sequence and raise nothing.
    It raises [TypeError] at ["CONF:COIL " + self.coil_constant], a [str]
    plus a [float], for every frequency and time constant: the lock-ins,
    the multimeter and the magnet's maximal current are configured, the six
    magnet commands from the coil constant on are never sent (code_bug). *)
Theorem setup_raises_TypeError freq' time_constant' w :
  exists w',
    setup freq' time_constant' w = Raised TypeError w'
    /\ trace w' = (trace w ++ setup_sent (py_str freq') (py_str time_constant'))%list
    /\ written mag_ctrl (trace w') = (written mag_ctrl (trace w) ++ ["CONF:CURR:MAX 72"])%list
    /\ (forall cmd, In cmd (setup_unsent (repr_float 0.06914)) ->
                    ~ In (Write mag_ctrl cmd) (setup_sent (py_str freq') (py_str time_constant')))
    /\ time_constant (self w') = Some time_constant'
    /\ coil_constant (self w') = Some (PFloat 0.06914).
Proof.
  assert (Hrun : raises (setup freq' time_constant') w
            (fun e w' =>
               e = TypeError
               /\ trace w' = (trace w ++ setup_sent (py_str freq') (py_str time_constant'))%list
               /\ time_constant (self w') = Some time_constant'
               /\ coil_constant (self w') = Some (PFloat 0.06914))).
  { unfold setup, lockins, write. cbn [for_each].
    repeat (first [ apply raises_bind_left, raises_raise
                  | apply raises_bind
                  | apply returns_bind
                  | apply returns_update_self
                  | apply returns_get_self
                  | apply returns_emit
                  | apply returns_ret ];
            cbv beta;
            cbn [self trace files getattr str_add freq time_constant coil_constant
                 set_freq_attr set_time_constant set_coil_constant]).
    repeat split. repeat rewrite <- app_assoc. reflexivity. }
  destruct Hrun as (e & w' & Hrun & -> & Htr & Htc & Hk).
  exists w'. split; [exact Hrun |]. split; [exact Htr |].
  split; [| split; [| split; assumption]].
  - rewrite Htr. unfold written. rewrite flat_map_app. reflexivity.
  - intros cmd Hin Hsent. cbn in Hin, Hsent.
    repeat match goal with
           | H : _ \/ _ |- _ => destruct H
           | H : False |- _ => destruct H
           end; subst; discriminate.
Qed.

(** C10: [set_current_limit] raises [NameError] for the name [mag_ctrl],
    which is neither a local, a global nor a builtin, before any command is
    built or written: the trace, and with it the magnet controller, is left
    as it was, for every argument. Only [self.current] has been set. *)
Theorem set_current_limit_raises_NameError current' w :
  set_current_limit current' w
  = Raised (NameError "mag_ctrl")
           (mk_World (set_current current' (self w)) (trace w) (files w)).
Proof. reflexivity. Qed.

End Configuration.

(** * The csv log *)

Section Log.

Context {RT : PyRuntime}.

Lemma write_line_to_csv_returns filename i w t :
  getitem (times (self w)) i = Some t ->
  write_line_to_csv filename i w
  = Returned tt (mk_World (self w)
                          (trace w ++ [FileAppend filename (csv_text (self w) t)])
                          (append_file (files w) filename (csv_text (self w) t))).
Proof.
  intros Hi. unfold write_line_to_csv, with_open_a, bind, get_self, index.
  now rewrite Hi.
Qed.

Lemma write_line_to_csv_raises filename i w :
  getitem (times (self w)) i = None ->
  write_line_to_csv filename i w
  = Raised IndexError (mk_World (self w)
                                (trace w ++ [FileAppend filename ""])
                                (append_file (files w) filename "")).
Proof.
  intros Hi. unfold write_line_to_csv, with_open_a, bind, get_self, index.
  now rewrite Hi.
Qed.

Lemma getitem_nat {A : Type} (l : list A) (k : nat) :
  getitem l (Z.of_nat k) = nth_error l k.
Proof.
  unfold getitem.
  destruct (Z.leb_spec 0 (Z.of_nat k)); [| lia].
  now rewrite Nat2Z.id.
Qed.


(** The rows of an export: one [write_line_to_csv] per index, in order. *)
Lemma export_rows_return filename (ks : list nat) w :
  Forall (fun k => k < List.length (times (self w))) ks ->
  exists w',
    for_each (map Z.of_nat ks) (fun i => write_line_to_csv filename i) w = Returned tt w'
    /\ self w' = self w
    /\ exists lines,
        List.length lines = List.length ks
        /\ trace w' = (trace w ++ map (FileAppend filename) lines)%list.
Proof.
  revert w. induction ks as [| k ks IH]; intros w Hks.
  - exists w. repeat split. exists []. split; [reflexivity |]. cbn. now rewrite app_nil_r.
  - inversion Hks as [| ? ? Hk Hrest]; subst.
    destruct (nth_error (times (self w)) k) as [t |] eqn:Ht;
      [| apply nth_error_None in Ht; lia].
    cbn [map for_each]. unfold bind at 1.
    rewrite (write_line_to_csv_returns filename (Z.of_nat k) w t)
      by now rewrite getitem_nat.
    destruct (IH (mk_World (self w)
                           (trace w ++ [FileAppend filename (csv_text (self w) t)])
                           (append_file (files w) filename (csv_text (self w) t))) Hrest)
      as (w' & Hrun & Hself & lines & Hlen & Htr).
    exists w'. split; [exact Hrun |]. split; [exact Hself |].
    exists (csv_text (self w) t :: lines). split; [cbn; now rewrite Hlen |].
    rewrite Htr. cbn [trace map]. now rewrite <- app_assoc.
Qed.

Lemma export_to_csv_returns filename w :
  exists w',
    export_to_csv filename w = Returned tt w'
    /\ self w' = self w
    /\ exists lines,
        List.length lines = List.length (times (self w))
        /\ trace w' = (trace w ++ map (FileAppend filename) lines
                               ++ [FileAppend filename ""])%list.
Proof.
  destruct (export_rows_return filename (seq 0 (List.length (times (self w)))) w)
    as (w1 & Hrun & Hself & lines & Hlen & Htr).
  { apply Forall_forall. intros k Hk. apply in_seq in Hk. lia. }
  eexists. split.
  - unfold export_to_csv, with_open_a, bind, get_self, range. rewrite Hrun. reflexivity.
  - cbn [self trace]. split; [exact Hself |].
    exists lines. split; [now rewrite Hlen, length_seq |].
    rewrite Htr. now rewrite <- app_assoc.
Qed.

(** [import_from_csv] stops at its second statement, whatever the file. *)
Lemma import_from_csv_unbound filename w :
  import_from_csv filename w
  = Raised (UnboundLocalError "data")
           (mk_World (with_times clear (self w)) (trace w) (files w)).
Proof. reflexivity. Qed.

(** C3: writing the store with [export_to_csv] and reading the file back
    with [import_from_csv] should give the samples back. For every store
    the export returns and the import then raises [UnboundLocalError] on
    the local [data], before the file is opened: [times] has been cleared,
    the columns are what they were, nothing was read (code_bug). *)
Theorem export_then_import_raises filename w :
  exists w',
    (export_to_csv filename ;; import_from_csv filename)%py w
    = Raised (UnboundLocalError "data") w'
    /\ times (self w') = []
    /\ data (self w') = data (self w).
Proof.
  destruct (export_to_csv_returns filename w) as (w1 & Hrun & Hself & _).
  eexists. split.
  - unfold bind. rewrite Hrun. apply import_from_csv_unbound.
  - cbn. rewrite Hself. split; reflexivity.
Qed.

(** C8: a malformed row should abort [import_from_csv] with the parse
    error. No row is ever parsed: for every file, also one whose first line
    is malformed, the call raises [UnboundLocalError] after clearing
    [times], with the trace and the files untouched; it is not the parse
    error that propagates (code_bug, the defect of C3). *)
Theorem import_from_csv_parses_nothing filename w :
  exists w',
    import_from_csv filename w = Raised (UnboundLocalError "data") w'
    /\ trace w' = trace w
    /\ files w' = files w
    /\ times (self w') = []
    /\ forall s, UnboundLocalError "data" <> ParserError s
                 /\ UnboundLocalError "data" <> ValueError s.
Proof.
  eexists. split; [apply import_from_csv_unbound |].
  cbn. repeat split; discriminate.
Qed.

End Log.

(** * Traces *)

Lemma observable_app tr evs :
  observable (tr ++ evs)%list = (observable tr ++ observable evs)%list.
Proof. apply filter_app. Qed.

Lemma observable_queries evs : queries evs -> observable evs = [].
Proof.
  unfold observable.
  induction 1 as [| e evs He _ IH]; [reflexivity |].
  cbn [filter]. rewrite He. exact IH.
Qed.


Lemma queries_app evs evs' : queries evs -> queries evs' -> queries (evs ++ evs')%list.
Proof. intros H H'. apply Forall_app. now split. Qed.

Lemma last_field_cmd_app tr e :
  last_field_cmd (tr ++ [e])%list =
  match field_prog e with
  | Some cmd => Some cmd
  | None => last_field_cmd tr
  end.
Proof.
  induction tr as [| e' tr IH]; cbn.
  - now destruct (field_prog e).
  - rewrite IH. destruct (field_prog e); [reflexivity |].
    now destruct (last_field_cmd tr).
Qed.

Lemma field_prog_target s :
  field_prog (Write mag_ctrl ("CONF:FIELD:PROG " ++ s)) = Some ("CONF:FIELD:PROG " ++ s).
Proof. unfold field_prog. cbn. now destruct s. Qed.

(** * The magnet *)

Section Magnet.

Context {RT : PyRuntime} (lab : Lab).

(** What the polling loop guarantees when it exits: in its last round the
    first reading was not above [1.1 * field] and the second, the last
    reading taken, was not below [0.9 * field]. The second reading is not
    compared with the upper bound. *)
Lemma poll_field_sat fuel field w :
  sat (poll_field lab fuel field) w
      (fun _ w' =>
         self w' = self w /\ files w' = files w
         /\ exists polls r1 r2 x1 x2,
             trace w' = (trace w ++ polls
                           ++ [Query mag_ctrl "FIELD:MAG?" r1;
                               Query mag_ctrl "FIELD:MAG?" r2])%list
             /\ queries polls
             /\ float_of_str r1 = Some x1 /\ float_of_str r2 = Some x2
             /\ (1.1 * field <? x1)%float = false
             /\ (x2 <? 0.9 * field)%float = false)
      (fun _ _ => True).
Proof.
  revert w. induction fuel as [| fuel IH]; intros w; [exact I |].
  cbn [poll_field].
  apply sat_bind, sat_query, sat_bind, sat_float; [| trivial].
  intros x1 Hx1.
  destruct (1.1 * field <? x1)%float eqn:Hhigh.
  - eapply sat_weaken; [apply IH | | trivial].
    cbn [self trace files].
    intros _ w' (Hs & Hf & polls & r1 & r2 & y1 & y2 & Htr & Hq & H).
    split; [exact Hs |]. split; [exact Hf |].
    exists (Query mag_ctrl "FIELD:MAG?" (respond lab (trace w) mag_ctrl "FIELD:MAG?") :: polls),
      r1, r2, y1, y2.
    split; [rewrite Htr, <- app_assoc; reflexivity |].
    split; [now apply queries_cons | exact H].
  - apply sat_bind, sat_query, sat_bind, sat_float; [| trivial].
    cbn [self trace files].
    intros x2 Hx2.
    destruct (x2 <? 0.9 * field)%float eqn:Hlow.
    + eapply sat_weaken; [apply IH | | trivial].
      cbn [self trace files].
      intros _ w' (Hs & Hf & polls & r1 & r2 & y1 & y2 & Htr & Hq & H).
      split; [exact Hs |]. split; [exact Hf |].
      eexists (Query _ _ _ :: Query _ _ _ :: polls), r1, r2, y1, y2.
      split; [rewrite Htr, <- !app_assoc; reflexivity |].
      split; [now repeat apply queries_cons | exact H].
    + apply sat_ret. cbn [self trace files].
      repeat split.
      exists []. do 2 eexists. exists x1, x2.
      split; [rewrite <- app_assoc; reflexivity |].
      split; [apply queries_nil |].
      repeat split; assumption.
Qed.

Lemma in_band_spec field x :
  in_band field x = true ->
  (1.1 * field <? x)%float = false /\ (x <? 0.9 * field)%float = false.
Proof.
  unfold in_band. intros H. apply andb_true_iff in H. destruct H as [H1 H2].
  now rewrite negb_true_iff in H1, H2.
Qed.

(** When the magnet has settled the loop exits in its first round. *)
Lemma poll_field_returns fuel targets field w :
  settled lab targets -> In field targets ->
  last_field_cmd (trace w) = Some ("CONF:FIELD:PROG " ++ repr_float field) ->
  returns (poll_field lab (S fuel) field) w (fun _ _ => True).
Proof.
  intros Hset Hin Hlast. cbn [poll_field].
  destruct (Hset (trace w) field Hin Hlast) as (x1 & Hx1 & Hb1).
  apply in_band_spec in Hb1. destruct Hb1 as [Hhigh _].
  apply returns_bind, returns_query, returns_bind.
  apply returns_float with (x := x1); [exact Hx1 |].
  rewrite Hhigh.
  match goal with
  | |- returns _ ?w1 _ =>
      destruct (Hset (trace w1) field Hin) as (x2 & Hx2 & Hb2);
        [cbn [trace]; rewrite last_field_cmd_app; exact Hlast |]
  end.
  apply in_band_spec in Hb2. destruct Hb2 as [_ Hlow].
  apply returns_bind, returns_query, returns_bind.
  apply returns_float with (x := x2); [exact Hx2 |].
  rewrite Hlow. now apply returns_ret.
Qed.

(** A call of [change_field] that returns: the target and the ramp command
    went out, the loop polled, exited as [poll_field_sat] says, and the
    ramp was paused half a second later. *)
Lemma change_field_sat fuel field w :
  sat (change_field lab fuel field) w
      (fun _ w' =>
         self w' = self w /\ files w' = files w
         /\ exists polls r1 r2 x1 x2,
             trace w' = (trace w
                           ++ [Write mag_ctrl ("CONF:FIELD:PROG " ++ repr_float field);
                               Write mag_ctrl "RAMP"]
                           ++ polls
                           ++ [Query mag_ctrl "FIELD:MAG?" r1;
                               Query mag_ctrl "FIELD:MAG?" r2;
                               Sleep (PFloat 0.5); Write mag_ctrl "PAUSE"])%list
             /\ queries polls
             /\ float_of_str r1 = Some x1 /\ float_of_str r2 = Some x2
             /\ (1.1 * field <? x1)%float = false
             /\ (x2 <? 0.9 * field)%float = false)
      (fun _ _ => True).
Proof.
  unfold change_field, write, sleep.
  apply sat_bind, sat_emit, sat_bind, sat_emit, sat_bind.
  eapply sat_weaken; [apply poll_field_sat | | trivial].
  cbn [self trace files].
  intros _ w1 (Hs & Hf & polls & r1 & r2 & x1 & x2 & Htr & Hq & H).
  apply sat_bind, sat_emit, sat_emit.
  cbn [self trace files].
  split; [exact Hs |]. split; [exact Hf |].
  exists polls, r1, r2, x1, x2.
  split; [rewrite Htr; repeat rewrite <- app_assoc; reflexivity |].
  split; assumption.
Qed.

Lemma change_field_returns fuel targets field w :
  settled lab targets -> In field targets ->
  returns (change_field lab (S fuel) field) w
          (fun _ w' =>
             self w' = self w /\ files w' = files w
             /\ observable (trace w')
                = (observable (trace w)
                     ++ [Write mag_ctrl ("CONF:FIELD:PROG " ++ repr_float field);
                         Write mag_ctrl "RAMP"; Sleep (PFloat 0.5);
                         Write mag_ctrl "PAUSE"])%list).
Proof.
  intros Hset Hin.
  eapply returns_weaken.
  - eapply returns_sat with (Q := fun _ _ => True); [| apply change_field_sat].
    unfold change_field, write, sleep.
    apply returns_bind, returns_emit, returns_bind, returns_emit, returns_bind.
    eapply returns_weaken.
    + eapply poll_field_returns; eauto.
      cbn [trace]. rewrite last_field_cmd_app. cbn [field_prog prefix].
      rewrite last_field_cmd_app. now rewrite field_prog_target.
    + intros _ w1 _. cbv beta.
      apply returns_bind, returns_emit, returns_emit. exact I.
  - cbv beta. intros _ w' (_ & Hs & Hf & polls & r1 & r2 & x1 & x2 & Htr & Hq & _).
    split; [exact Hs |]. split; [exact Hf |].
    rewrite Htr. rewrite !observable_app.
    rewrite (observable_queries polls Hq). reflexivity.
Qed.

End Magnet.

(** * The sweep *)

Section Sweep.

Context {RT : PyRuntime} (lab : Lab).





(** C6: a sweep over no target takes no measurement, appends no row, writes
    no line, and sends the magnet controller exactly one command,
    ["CONF:CURR:PROG 0"]: the world is as before but for that one write. *)
Theorem multi_measure_empty fuel filename w :
  multi_measure lab fuel [] filename w
  = Returned tt (mk_World (self w)
                          (trace w ++ [Write mag_ctrl "CONF:CURR:PROG 0"])
                          (files w)).
Proof. reflexivity. Qed.


End Sweep.

(** * The sample instruments *)

Import Sample.

Lemma steady_lab_parses : replies_parse steady_lab.
Proof. intros tr d cmd. exists 1.0%float. reflexivity. Qed.


Lemma tracking_lab_settled : settled tracking_lab [0.1; 0.2]%float.
Proof.
  intros tr field Hin Hlast. cbn [respond tracking_lab].
  destruct Hin as [<- | [<- | []]]; rewrite Hlast.
  - exists 0.1%float. split; reflexivity.
  - exists 0.2%float. split; reflexivity.
Qed.

Lemma start_is_fresh : fresh (self start).
Proof. split; [reflexivity |]. repeat constructor. Qed.

Lemma measure_start : measure steady_lab start = Returned 0%Z after_one.
Proof. vm_compute. reflexivity. Qed.

(** C1 at the sample: one [measure] on the fresh store. *)
Lemma measure_breaks_equal_lengths_witness :
  equal_lengths (self start)
  /\ measure steady_lab start = Returned 0%Z after_one
  /\ List.length (ef_vs (self after_one)) = 2 + List.length (ef_os (self after_one))
  /\ ~ equal_lengths (self after_one).
Proof.
  assert (H0 : equal_lengths (self start)) by (repeat constructor).
  exact (conj H0 (conj measure_start
           (measure_breaks_equal_lengths steady_lab start 0%Z after_one H0 measure_start))).
Defined.

(** C9 at the sample: the second call on a fresh store returns 1. *)
Lemma measure_returns_row_index_witness :
  after_calls steady_lab 1 after_one
  /\ exists w', measure steady_lab after_one = Returned 1%Z w'.
Proof.
  assert (H1 : after_calls steady_lab 1 after_one).
  { apply calls_returned with (w := start) (i := 0%Z);
      [apply calls_fresh, start_is_fresh | exact measure_start]. }
  split; [exact H1 |].
  exact (proj2 (measure_returns_row_index steady_lab 1 after_one H1) steady_lab_parses).
Defined.


(** C2: [write_line_to_csv(filename, i)] should write the timestamp of row
    [i] and then the [i]-th value of every column. It writes [str(datum)]
    for every whole column [datum] of [self.data] instead. After one
    [measure] on a fresh store the line for row 0 holds the bracketed
    lists, among them the two readings in [ef_vs] and the empty [ef_os];
    and for a store of one complete row it differs from the line the
    specification describes (code_bug). *)
Theorem write_line_to_csv_writes_columns :
  (exists w',
      write_line_to_csv "log.csv" 0 after_one = Returned tt w'
      /\ read_file (files w') "log.csv"
         = Some ("2024-01-01T00:00:00,[1.0],[1.0],[1.0],[1.0, 1.0],[],[1.0],[1.0],[1.0, 1.0],[],[1.0],"
                   ++ newline))
  /\ (exists w' line,
         write_line_to_csv "log.csv" 0 one_row = Returned tt w'
         /\ appended "log.csv" (trace w') = [line]
         /\ line = "2024-01-01T00:00:00,[1.0],[1.0],[1.0],[1.0],[1.0],[1.0],[1.0],[1.0],[1.0],[1.0],"
                     ++ newline
         /\ serializeRow_spec (self one_row) 0
            = Some ("2024-01-01T00:00:00,1.0,1.0,1.0,1.0,1.0,1.0,1.0,1.0,1.0,1.0," ++ newline)
         /\ serializeRow_spec (self one_row) 0 <> Some line).
Proof.
  split.
  - eexists. split; [vm_compute; reflexivity |]. vm_compute. reflexivity.
  - do 2 eexists. split; [vm_compute; reflexivity |].
    split; [vm_compute; reflexivity |].
    split; [vm_compute; reflexivity |].
    split; [vm_compute; reflexivity |].
    vm_compute. discriminate.
Qed.

(** C4: [change_field] should not return while the last field reading is
    outside [0.9 f, 1.1 f]. Its loop reads the field twice per round and
    compares the first reading with the upper bound only, the second with
    the lower bound only: with target 1.0 and readings 1.0 then 2.0 it
    returns after one round, the last reading 2.0 above 1.1 (code_bug). *)
Theorem change_field_returns_out_of_band :
  exists w',
    change_field overshoot_lab 1 1.0%float start = Returned tt w'
    /\ field_readings (trace w') = ["1.0"; "2.0"]
    /\ float_of_str "2.0" = Some 2.0%float
    /\ in_band 1.0%float 2.0%float = false
    /\ (1.1 * 1.0 <? 2.0)%float = true.
Proof.
  eexists. split; [vm_compute; reflexivity |].
  repeat split; vm_compute; reflexivity.
Qed.

(** * Files *)

Lemma append_assoc (s1 s2 s3 : string) : (s1 ++ s2) ++ s3 = s1 ++ s2 ++ s3.
Proof. induction s1 as [| c s1 IH]; cbn; [reflexivity | now rewrite IH]. Qed.

Lemma append_nil_r (s : string) : s ++ "" = s.
Proof. induction s as [| c s IH]; cbn; [reflexivity | now rewrite IH]. Qed.

Lemma contents_append_same fs filename text :
  contents (append_file fs filename text) filename = contents fs filename ++ text.
Proof.
  unfold contents.
  induction fs as [| [n c] fs IH]; cbn.
  - now rewrite String.eqb_refl.
  - destruct (String.eqb n filename) eqn:Hn; cbn; rewrite Hn; [reflexivity | exact IH].
Qed.

Lemma read_file_append_same fs filename text :
  read_file (append_file fs filename text) filename
  = Some (contents fs filename ++ text).
Proof.
  unfold contents.
  induction fs as [| [n c] fs IH]; cbn.
  - now rewrite String.eqb_refl.
  - destruct (String.eqb n filename) eqn:Hn; cbn; rewrite Hn; [reflexivity | exact IH].
Qed.

Lemma read_file_append_other fs filename text other :
  other <> filename ->
  read_file (append_file fs filename text) other = read_file fs other.
Proof.
  intros Hne.
  induction fs as [| [n c] fs IH]; cbn.
  - apply String.eqb_neq in Hne. rewrite String.eqb_sym in Hne. now rewrite Hne.
  - destruct (String.eqb n filename) eqn:Hn; cbn.
    + apply String.eqb_eq in Hn. subst n.
      destruct (String.eqb filename other) eqn:Ho; [| reflexivity].
      apply String.eqb_eq in Ho. congruence.
    + now rewrite IH.
Qed.

Lemma contents_fold_append filename lines fs :
  contents (fold_left (fun fs text => append_file fs filename text) lines fs) filename
  = contents fs filename ++ text_of lines.
Proof.
  revert fs. induction lines as [| line lines IH]; intros fs; cbn.
  - now rewrite append_nil_r.
  - rewrite IH, contents_append_same. apply append_assoc.
Qed.

Lemma read_file_fold_other filename lines fs other :
  other <> filename ->
  read_file (fold_left (fun fs text => append_file fs filename text) lines fs) other
  = read_file fs other.
Proof.
  intros Hne. revert fs. induction lines as [| line lines IH]; intros fs; cbn.
  - reflexivity.
  - now rewrite IH, read_file_append_other.
Qed.

Lemma appended_app filename tr evs :
  appended filename (tr ++ evs)%list
  = (appended filename tr ++ appended filename evs)%list.
Proof. apply flat_map_app. Qed.

Lemma appended_map filename lines :
  appended filename (map (FileAppend filename) lines) = lines.
Proof.
  induction lines as [| line lines IH]; [reflexivity |].
  cbn [map appended flat_map]. rewrite String.eqb_refl.
  cbn [app]. f_equal. exact IH.
Qed.

Section MoreLog.

Context {RT : PyRuntime}.

(** The rows of an export, exactly: the rows [l] that follow the rows
    [pre] already written. *)
Lemma export_rows_exact filename l pre w :
  times (self w) = (pre ++ l)%list ->
  for_each (map Z.of_nat (seq (List.length pre) (List.length l)))
           (fun i => write_line_to_csv filename i) w
  = Returned tt
      (mk_World (self w)
                (trace w ++ map (FileAppend filename) (map (csv_text (self w)) l))
                (fold_left (fun fs text => append_file fs filename text)
                           (map (csv_text (self w)) l) (files w))).
Proof.
  revert pre w. induction l as [| t l IH]; intros pre w Ht.
  - cbn. rewrite app_nil_r. now destruct w.
  - cbn [List.length seq map for_each]. unfold bind at 1.
    rewrite (write_line_to_csv_returns filename (Z.of_nat (List.length pre)) w t).
    2:{ rewrite getitem_nat, Ht, nth_error_app2, Nat.sub_diag by lia. reflexivity. }
    specialize (IH (pre ++ [t])%list
                   (mk_World (self w)
                             (trace w ++ [FileAppend filename (csv_text (self w) t)])
                             (append_file (files w) filename (csv_text (self w) t)))).
    rewrite length_app in IH. cbn [List.length] in IH.
    rewrite Nat.add_1_r in IH.
    rewrite IH by (cbn [self]; now rewrite Ht, <- app_assoc).
    cbn [self trace files fold_left]. now rewrite <- app_assoc.
Qed.

(** X1: [export_to_csv] returns for every store, and appends to the file
    one line per timestamp, in the order of the rows, after whatever the
    file held before (an absent file is created); the store and every
    other file are left as they were. *)
Theorem export_to_csv_appends_every_row filename w :
  exists w',
    export_to_csv filename w = Returned tt w'
    /\ self w' = self w
    /\ appended filename (trace w')
       = (appended filename (trace w)
            ++ map (csv_text (self w)) (times (self w)) ++ [""])%list
    /\ read_file (files w') filename
       = Some (contents (files w) filename
                 ++ text_of (map (csv_text (self w)) (times (self w))))
    /\ forall other, other <> filename ->
                     read_file (files w') other = read_file (files w) other.
Proof.
  pose proof (export_rows_exact filename (times (self w)) [] w eq_refl) as Hrows.
  cbn [List.length] in Hrows.
  eexists. split.
  { unfold export_to_csv, with_open_a, bind, get_self, range.
    rewrite Hrows. reflexivity. }
  cbn [self trace files]. split; [reflexivity |]. split; [| split].
  - rewrite !appended_app, appended_map, <- app_assoc. f_equal. f_equal.
    cbn. now rewrite String.eqb_refl.
  - rewrite read_file_append_same, contents_fold_append. now rewrite append_nil_r.
  - intros other Hne.
    now rewrite read_file_append_other, read_file_fold_other.
Qed.

End MoreLog.

(** * Indices *)

Lemma getitem_out_of_range {A : Type} (l : list A) (i : Z) :
  (Z.of_nat (List.length l) <= i \/ i < - Z.of_nat (List.length l))%Z ->
  getitem l i = None.
Proof.
  intros Hi. unfold getitem.
  destruct (Z.leb_spec 0 i).
  - apply nth_error_None. lia.
  - destruct (Z.leb_spec (- Z.of_nat (List.length l)) i); [lia | reflexivity].
Qed.

Lemma getitem_negative {A : Type} (l : list A) (i : Z) :
  (- Z.of_nat (List.length l) <= i < 0)%Z ->
  getitem l i = getitem l (Z.of_nat (List.length l) + i).
Proof.
  intros Hi. unfold getitem.
  destruct (Z.leb_spec 0 i); [lia |].
  destruct (Z.leb_spec (- Z.of_nat (List.length l)) i); [| lia].
  destruct (Z.leb_spec 0 (Z.of_nat (List.length l) + i)); [reflexivity | lia].
Qed.

Section Bounds.

Context {RT : PyRuntime} (lab : Lab).

(** X2: an index that is out of range (at or beyond the number of rows, or
    below its negation) makes [write_line_to_csv] raise [IndexError]; the
    store is unchanged and nothing is written, but the file has been
    opened for appending, so it exists afterwards with the text it had. *)
Theorem write_line_to_csv_out_of_range filename i w :
  (Z.of_nat (List.length (times (self w))) <= i
   \/ i < - Z.of_nat (List.length (times (self w))))%Z ->
  exists w',
    write_line_to_csv filename i w = Raised IndexError w'
    /\ self w' = self w
    /\ appended filename (trace w') = (appended filename (trace w) ++ [""])%list
    /\ read_file (files w') filename = Some (contents (files w) filename).
Proof.
  intros Hi. eexists. split.
  - apply write_line_to_csv_raises. now apply getitem_out_of_range.
  - cbn [self trace files]. split; [reflexivity |]. split.
    + rewrite appended_app. cbn. now rewrite String.eqb_refl.
    + now rewrite read_file_append_same, append_nil_r.
Qed.

(** X3: a negative index counts from the end, as Python's lists do: for
    [-n <= i < 0] with [n] rows, [write_line_to_csv] with [i] does what it
    does with [n + i]; with -1 it logs the last row. *)
Theorem write_line_to_csv_negative_index filename i w :
  (- Z.of_nat (List.length (times (self w))) <= i < 0)%Z ->
  write_line_to_csv filename i w
  = write_line_to_csv filename (Z.of_nat (List.length (times (self w))) + i) w.
Proof.
  intros Hi.
  unfold write_line_to_csv, with_open_a, bind, get_self, index.
  now rewrite (getitem_negative (times (self w)) i Hi).
Qed.

(** X4: a lock-in number outside [-3 .. 2] makes [measure_r_lockin] and
    [measure_o_lockin] raise [IndexError] before anything is sent: the
    world is untouched. *)
Theorem measure_lockin_out_of_range n w :
  (3 <= n \/ n < -3)%Z ->
  measure_r_lockin lab n w = Raised IndexError w
  /\ measure_o_lockin lab n w = Raised IndexError w.
Proof.
  intros Hn.
  assert (Hnone : getitem lockins n = None)
    by (apply getitem_out_of_range; cbn; lia).
  unfold measure_r_lockin, measure_o_lockin, bind, index.
  rewrite Hnone. now split.
Qed.

End Bounds.

(** * Resource names *)

Lemma append_cancel_l (s x y : string) : s ++ x = s ++ y -> x = y.
Proof.
  induction s as [| c s IH]; cbn; [trivial |].
  intros H. injection H as H. now apply IH.
Qed.

Lemma length_append (x y : string) :
  String.length (x ++ y) = String.length x + String.length y.
Proof. induction x as [| c x IH]; cbn; [reflexivity | now rewrite IH]. Qed.

Lemma append_cancel_r (t x y : string) : x ++ t = y ++ t -> x = y.
Proof.
  revert y. induction x as [| c x IH]; intros [| d y] H; cbn in H.
  - reflexivity.
  - apply (f_equal String.length) in H. cbn in H. rewrite length_append in H. lia.
  - apply (f_equal String.length) in H. cbn in H. rewrite length_append in H. lia.
  - injection H as -> H. f_equal. now apply IH.
Qed.

Lemma to_int_not_nil z :
  Z.to_int z <> Decimal.Pos Decimal.Nil /\ Z.to_int z <> Decimal.Neg Decimal.Nil.
Proof.
  destruct z as [| p | p]; cbn; split; try discriminate;
    intros H; injection H as H; now apply DecimalPos.Unsigned.to_uint_nonnil in H.
Qed.

Lemma str_int_injective a b : str_int a = str_int b -> a = b.
Proof.
  unfold str_int. intros H.
  apply (f_equal NilZero.int_of_string) in H.
  destruct (to_int_not_nil a) as [Ha1 Ha2], (to_int_not_nil b) as [Hb1 Hb2].
  rewrite !NilZero.isi in H by assumption.
  injection H as H.
  apply (f_equal Z.of_int) in H. now rewrite !DecimalZ.of_to in H.
Qed.

(** X5: on one bus, [_open_gpib_num] gives different addresses different
    resource names: instruments at distinct addresses are never opened
    under the same name. *)
Theorem open_gpib_num_distinct a b gpib :
  a <> b -> _open_gpib_num a gpib <> _open_gpib_num b gpib.
Proof.
  intros Hab H. apply Hab. unfold _open_gpib_num in H.
  apply append_cancel_l, append_cancel_l, append_cancel_l in H.
  apply append_cancel_r in H. now apply str_int_injective.
Qed.

(** * More on [measure] *)

Ltac norm_world :=
  cbv [self trace files times diodevs currs fields ef_vs ef_os bf_vs bf_os ad_vs
       ad_os freqs freq time_constant coil_constant current with_times with_diodevs
       with_currs with_fields with_ef_vs with_bf_vs with_bf_os with_ad_vs with_freqs
       append].

Section MoreMeasure.

Context {RT : PyRuntime} (lab : Lab).

Lemma sat_reading_parsed d cmd w (Q : float -> World -> Prop) (E : exn -> World -> Prop) :
  (forall x r, float_of_str r = Some x ->
               Q x (mk_World (self w) (trace w ++ [Query d cmd r]) (files w))) ->
  (forall e r, E e (mk_World (self w) (trace w ++ [Query d cmd r]) (files w))) ->
  sat (r <- query lab d cmd ;; float_ r) w Q E.
Proof.
  intros HQ HE. apply sat_bind, sat_query, sat_float; auto.
Qed.

(** A call that raises has appended its timestamp and touched no phase
    column of lock-in 2. *)
Lemma measure_sat_raised w :
  sat (measure lab) w (fun _ _ => True)
      (fun _ w' =>
         times (self w') = (times (self w) ++ [wall_clock lab (trace w)])%list
         /\ ef_os (self w') = ef_os (self w)).
Proof.
  rewrite measure_unfold.
  repeat sat_step; try exact I; split; reflexivity.
Qed.

(** X6: [measure] is not atomic. When it raises (a reply that [float]
    rejects), the timestamp it took first stays in [times] and [ef_os] is
    as before: a store whose columns had equal lengths has not any more. *)
Theorem measure_failure_keeps_timestamp w e w' :
  measure lab w = Raised e w' ->
  times (self w') = (times (self w) ++ [wall_clock lab (trace w)])%list
  /\ (equal_lengths (self w) -> ~ equal_lengths (self w')).
Proof.
  intros Hm.
  pose proof (sat_raised _ _ _ _ _ _ (measure_sat_raised w) Hm) as [Ht Hos].
  split; [exact Ht |].
  unfold equal_lengths, data. intros Heq Heq'.
  repeat match goal with
         | H : Forall _ (_ :: _) |- _ => inversion H; subst; clear H
         end.
  rewrite Ht, length_app in *. cbn [List.length] in *.
  rewrite Hos in *. lia.
Qed.

(** Which reply goes where. *)
Lemma measure_sat_readings w :
  sat (measure lab) w
      (fun i w' =>
         exists r1 r2 r3 r4 r5 r6 r7 r8 r9 r10 x1 x2 x3 x4 x5 x6 x7 x8 x9 x10,
           let o := self w in
           let t := wall_clock lab (trace w) in
           self w' = mk_HallDataR
                       (times o ++ [t]) (diodevs o ++ [x1]) (currs o ++ [x2])
                       (fields o ++ [x3]) (ef_vs o ++ [x6; x7]) (ef_os o)
                       (bf_vs o ++ [x4]) (bf_os o ++ [x5])
                       (ad_vs o ++ [x8; x9]) (ad_os o) (freqs o ++ [x10])
                       (freq o) (time_constant o) (coil_constant o) (current o)
           /\ trace w' = (trace w ++ Now t
                            :: map (fun qr => asked (fst qr) (snd qr))
                                   (combine measure_queries
                                            [r1; r2; r3; r4; r5; r6; r7; r8; r9; r10]))%list
           /\ Forall2 (fun r x => float_of_str r = Some x)
                      [r1; r2; r3; r4; r5; r6; r7; r8; r9; r10]
                      [x1; x2; x3; x4; x5; x6; x7; x8; x9; x10]
           /\ files w' = files w
           /\ i = Z.of_nat (List.length (times o)))
      (fun _ _ => True).
Proof.
  rewrite measure_unfold.
  destruct w as [[ts ds cs fs evs eos bvs bos avs aos fqs fr tc cc cu] tr fls].
  apply sat_bind, sat_now. norm_world.
  apply sat_bind, sat_update_self. norm_world.
  repeat (apply sat_bind;
          apply sat_reading_parsed; [intros ? ? ? | intros; exact I];
          norm_world;
          apply sat_bind, sat_update_self; norm_world).
  apply sat_bind, sat_get_self, sat_ret. norm_world.
  do 20 eexists. cbv zeta. unfold append.
  split; [rewrite <- !app_assoc; reflexivity |].
  split; [repeat rewrite <- app_assoc; reflexivity |].
  split; [repeat constructor; eassumption |].
  split; [reflexivity |].
  rewrite length_app. cbn [List.length]. lia.
Qed.

(** X7: what a returning [measure] records. When every reply reads as a
    float the call returns the old number of rows; it has taken the
    timestamp, then sent the ten queries of [measure_queries] in order,
    and appended the multimeter reading to [diodevs], the magnet's current
    and field to [currs] and [fields], R and theta of lock-in 1 to [bf_vs]
    and [bf_os], R and theta of lock-in 2 both to [ef_vs], R and theta of
    lock-in 3 both to [ad_vs], and the frequency to [freqs]; [ef_os],
    [ad_os], the configuration and the files are untouched. *)
Theorem measure_records_readings w :
  replies_parse lab ->
  exists w' r1 r2 r3 r4 r5 r6 r7 r8 r9 r10 x1 x2 x3 x4 x5 x6 x7 x8 x9 x10,
    let o := self w in
    let t := wall_clock lab (trace w) in
    measure lab w = Returned (Z.of_nat (List.length (times o))) w'
    /\ self w' = mk_HallDataR
                   (times o ++ [t]) (diodevs o ++ [x1]) (currs o ++ [x2])
                   (fields o ++ [x3]) (ef_vs o ++ [x6; x7]) (ef_os o)
                   (bf_vs o ++ [x4]) (bf_os o ++ [x5])
                   (ad_vs o ++ [x8; x9]) (ad_os o) (freqs o ++ [x10])
                   (freq o) (time_constant o) (coil_constant o) (current o)
    /\ trace w' = (trace w ++ Now t
                     :: map (fun qr => asked (fst qr) (snd qr))
                            (combine measure_queries
                                     [r1; r2; r3; r4; r5; r6; r7; r8; r9; r10]))%list
    /\ Forall2 (fun r x => float_of_str r = Some x)
               [r1; r2; r3; r4; r5; r6; r7; r8; r9; r10]
               [x1; x2; x3; x4; x5; x6; x7; x8; x9; x10]
    /\ files w' = files w.
Proof.
  intros Hp.
  destruct (measure_returns lab w Hp) as (i & w' & Hm & _).
  pose proof (sat_returned _ _ _ _ _ _ (measure_sat_readings w) Hm) as Hr.
  destruct Hr as (r1 & r2 & r3 & r4 & r5 & r6 & r7 & r8 & r9 & r10
                  & x1 & x2 & x3 & x4 & x5 & x6 & x7 & x8 & x9 & x10
                  & Hs & Htr & Hf & Hfiles & Hi).
  exists w', r1, r2, r3, r4, r5, r6, r7, r8, r9, r10,
    x1, x2, x3, x4, x5, x6, x7, x8, x9, x10.
  cbv zeta. rewrite <- Hi. repeat split; assumption.
Qed.

(** X8: the stores that returning measurements build. After [n] calls to
    [measure] on a fresh store that all returned, [times] and the six
    columns [diodevs], [currs], [fields], [bf_vs], [bf_os], [freqs] hold
    [n] entries, [ef_vs] and [ad_vs] hold [2 * n], and [ef_os] and [ad_os]
    are still empty. *)
Theorem after_measures_shape n w :
  after_measures lab n w ->
  let o := self w in
  List.length (times o) = n
  /\ Forall (fun datum => List.length datum = n)
            [diodevs o; currs o; fields o; bf_vs o; bf_os o; freqs o]
  /\ List.length (ef_vs o) = 2 * n /\ List.length (ad_vs o) = 2 * n
  /\ ef_os o = [] /\ ad_os o = [].
Proof.
  cbv zeta.
  induction 1 as [w [Ht Hd] | n w i w' _ IH Hm].
  - unfold data in Hd.
    repeat match goal with
           | H : Forall _ (_ :: _) |- _ => inversion H; subst; clear H
           end.
    repeat match goal with H : _ = [] |- _ => rewrite H; clear H end.
    repeat split; repeat constructor.
  - pose proof (sat_returned _ _ _ _ _ _ (measure_sat lab w) Hm) as Hd.
    destruct Hd as (_ & Ht & H1 & H2 & H3 & H4 & H5 & H6 & H7 & H8 & H9 & H10 & _).
    destruct IH as (It & Id & Ie & Ia & Ieo & Iao).
    repeat match goal with
           | H : Forall _ (_ :: _) |- _ => inversion H; subst; clear H
           end.
    rewrite Ht, length_app. cbn [List.length].
    split; [lia |].
    split; [repeat constructor; lia |].
    repeat split; try lia; congruence.
Qed.

End MoreMeasure.

(** * More on the magnet and the sweep *)

Lemma written_app d tr evs :
  written d (tr ++ evs)%list = (written d tr ++ written d evs)%list.
Proof. apply flat_map_app. Qed.

Lemma written_queries d evs : queries evs -> written d evs = [].
Proof.
  induction 1 as [| e evs He _ IH]; [reflexivity |].
  destruct e; try discriminate He. exact IH.
Qed.

Section MoreMagnet.

Context {RT : PyRuntime} (lab : Lab).

Lemma poll_field_high fuel field w :
  (forall tr, exists x,
      float_of_str (respond lab tr mag_ctrl "FIELD:MAG?") = Some x
      /\ (1.1 * field <? x)%float = true) ->
  poll_field lab fuel field w = Looping.
Proof.
  intros Hhigh. revert w. induction fuel as [| fuel IH]; intros w; [reflexivity |].
  cbn [poll_field]. unfold bind at 1 2. unfold query at 1. unfold float_ at 1.
  destruct (Hhigh (trace w)) as (x & Hx & Hgt). rewrite Hx. unfold ret at 1.
  rewrite Hgt. apply IH.
Qed.

Lemma poll_field_low fuel field w :
  (forall tr, exists x,
      float_of_str (respond lab tr mag_ctrl "FIELD:MAG?") = Some x
      /\ (1.1 * field <? x)%float = false
      /\ (x <? 0.9 * field)%float = true) ->
  poll_field lab fuel field w = Looping.
Proof.
  intros Hlow. revert w. induction fuel as [| fuel IH]; intros w; [reflexivity |].
  cbn [poll_field]. unfold bind at 1 2. unfold query at 1. unfold float_ at 1.
  destruct (Hlow (trace w)) as (x & Hx & Hgt & _). rewrite Hx. unfold ret at 1.
  rewrite Hgt.
  unfold bind at 1 2. unfold query at 1. unfold float_ at 1. cbn [trace].
  match goal with
  | |- context [respond lab ?tr mag_ctrl "FIELD:MAG?"] =>
      destruct (Hlow tr) as (x' & Hx' & _ & Hlt)
  end.
  rewrite Hx'. unfold ret at 1. rewrite Hlt. apply IH.
Qed.

(** X9: [change_field] has no timeout. When every field reading is above
    [1.1 * field], or every reading is below [0.9 * field], the polling
    loop is still running after any number of rounds: the call never
    returns and never raises. *)
Theorem change_field_never_returns field :
  (forall tr, exists x,
      float_of_str (respond lab tr mag_ctrl "FIELD:MAG?") = Some x
      /\ (1.1 * field <? x)%float = true)
  \/ (forall tr, exists x,
         float_of_str (respond lab tr mag_ctrl "FIELD:MAG?") = Some x
         /\ (1.1 * field <? x)%float = false
         /\ (x <? 0.9 * field)%float = true) ->
  forall fuel w, change_field lab fuel field w = Looping.
Proof.
  intros H fuel w. unfold change_field, write.
  unfold bind at 1 2 3. unfold emit at 1 2.
  destruct H as [H | H];
    [rewrite poll_field_high by exact H | rewrite poll_field_low by exact H];
    reflexivity.
Qed.


(** X11: when the magnet reports a field within the band of the target it
    was programmed to, [change_field] returns: it has sent the target,
    [RAMP] and, after the settle sleep of 0.5 s, [PAUSE], these three and
    no other command, and left the store and the files alone. *)
Theorem change_field_settles fuel field w :
  settled lab [field] ->
  exists w',
    change_field lab (S fuel) field w = Returned tt w'
    /\ self w' = self w /\ files w' = files w
    /\ observable (trace w')
       = (observable (trace w)
            ++ [Write mag_ctrl ("CONF:FIELD:PROG " ++ repr_float field);
                Write mag_ctrl "RAMP"; Sleep (PFloat 0.5); Write mag_ctrl "PAUSE"])%list
    /\ written mag_ctrl (trace w')
       = (written mag_ctrl (trace w)
            ++ [("CONF:FIELD:PROG " ++ repr_float field)%string; "RAMP"; "PAUSE"])%list.
Proof.
  intros Hset.
  destruct (change_field_returns lab fuel [field] field w Hset (or_introl eq_refl))
    as ([] & w' & Hrun & Hs & Hf & Hobs).
  pose proof (sat_returned _ _ _ _ _ _ (change_field_sat lab (S fuel) field w) Hrun)
    as (_ & _ & polls & r1 & r2 & x1 & x2 & Htr & Hq & _).
  exists w'. repeat split; try assumption.
  rewrite Htr, !written_app, (written_queries _ polls Hq).
  cbn. reflexivity.
Qed.

(** X12: [change_current] polls [CURR:MAG?]. When the magnet answers every
    such query with a current within the band of the target, the call
    returns after one round of two queries, without the 0.1 s sleep of the
    loop body: target, [RAMP], two readings, the settle sleep, [PAUSE]. *)
Theorem change_current_settles fuel amps reply x w :
  (forall tr, respond lab tr mag_ctrl "CURR:MAG?" = reply) ->
  float_of_str reply = Some x ->
  in_band amps x = true ->
  change_current lab (S fuel) amps w
  = Returned tt
      (mk_World (self w)
                (trace w ++ [Write mag_ctrl ("CONF:CURR:PROG " ++ repr_float amps);
                             Write mag_ctrl "RAMP";
                             Query mag_ctrl "CURR:MAG?" reply;
                             Query mag_ctrl "CURR:MAG?" reply;
                             Sleep (PFloat 0.5); Write mag_ctrl "PAUSE"])
                (files w)).
Proof.
  intros Hr Hx Hband. apply in_band_spec in Hband. destruct Hband as [Hhigh Hlow].
  unfold change_current, write, sleep. cbn [poll_current py_str].
  unfold bind at 1 2 3 4 5. unfold emit at 1 2. cbn [trace self files].
  unfold query at 1. cbn [trace self files]. rewrite Hr.
  unfold float_ at 1. rewrite Hx. unfold ret at 1. rewrite Hhigh.
  unfold bind at 1 2. unfold query at 1. cbn [trace self files]. rewrite Hr.
  unfold float_ at 1. rewrite Hx. unfold ret at 1. rewrite Hlow.
  unfold ret at 1. unfold bind at 1. unfold emit. cbn [trace self files].
  repeat rewrite <- app_assoc. reflexivity.
Qed.




End MoreMagnet.

(** * The line format, the loop exit and the import loop *)

Lemma field_readings_app tr evs :
  field_readings (tr ++ evs)%list = (field_readings tr ++ field_readings evs)%list.
Proof. apply flat_map_app. Qed.

Lemma split_not_nil sep s : split sep s <> [].
Proof.
  destruct s as [| c s]; cbn; [discriminate |].
  destruct (Ascii.eqb c sep); [discriminate |].
  destruct (split sep s); discriminate.
Qed.

Section Format.

Context {RT : PyRuntime} (lab : Lab).

Lemma fold_left_columns (columns : list (list float)) (csv : string) :
  fold_left (fun csv datum => (csv ++ str_list datum) ++ ",") columns csv
  = csv ++ text_of (map (fun datum => str_list datum ++ ",") columns).
Proof.
  revert csv. induction columns as [| datum columns IH]; intros csv;
    cbn [fold_left map].
  - unfold text_of. cbn [fold_right]. now rewrite append_nil_r.
  - rewrite IH. unfold text_of. cbn [fold_right]. now rewrite !append_assoc.
Qed.

(** X15: the line [write_line_to_csv] appends for a valid index. The file
    grows by exactly the ISO timestamp of the row, a comma, then for each
    of the ten columns of [self.data] the [str] of the whole column list
    and a comma, then a newline; the store and the other files are
    unchanged. *)
Theorem write_line_to_csv_line_format filename i t w :
  getitem (times (self w)) i = Some t ->
  exists w',
    write_line_to_csv filename i w = Returned tt w'
    /\ self w' = self w
    /\ read_file (files w') filename
       = Some (contents (files w) filename
                 ++ isoformat t ++ ","
                 ++ text_of (map (fun datum => str_list datum ++ ",") (data (self w)))
                 ++ newline)
    /\ forall other, other <> filename ->
                     read_file (files w') other = read_file (files w) other.
Proof.
  intros Hi. eexists. split; [apply write_line_to_csv_returns; exact Hi |].
  cbn [self files]. split; [reflexivity |]. split.
  - rewrite read_file_append_same. f_equal. f_equal.
    unfold csv_text. rewrite fold_left_columns. now rewrite !append_assoc.
  - intros other Hne. now apply read_file_append_other.
Qed.

(** X16: what [change_field] guarantees when it returns. Of the field
    readings it took, the last but one was not above [1.1 * field] and the
    last was not below [0.9 * field]; nothing relates the last reading to
    the upper bound. *)
Theorem change_field_exit_guarantee fuel field w w' :
  change_field lab fuel field w = Returned tt w' ->
  exists earlier r1 r2 x1 x2,
    field_readings (trace w') = (field_readings (trace w) ++ earlier ++ [r1; r2])%list
    /\ float_of_str r1 = Some x1 /\ float_of_str r2 = Some x2
    /\ (1.1 * field <? x1)%float = false
    /\ (x2 <? 0.9 * field)%float = false.
Proof.
  intros Hrun.
  pose proof (sat_returned _ _ _ _ _ _ (change_field_sat lab fuel field w) Hrun)
    as (_ & _ & polls & r1 & r2 & x1 & x2 & Htr & _ & H1 & H2 & Hh & Hl).
  exists (field_readings polls), r1, r2, x1, x2.
  split; [| repeat split; assumption].
  rewrite Htr, !field_readings_app. reflexivity.
Qed.

(** X17: the body of the import loop cannot succeed. For every line it
    raises: [IndexError] when the line holds no token but empty ones,
    [ParserError] when its first token is no timestamp, and otherwise
    [AttributeError] for [self.datum], with the timestamp already appended
    to [times]. *)
Theorem import_line_never_returns line w :
  exists e w',
    import_line line w = Raised e w'
    /\ (e = IndexError /\ w' = w
        \/ (exists s, e = ParserError s) /\ w' = w
        \/ exists t, e = AttributeError "datum"
                     /\ w' = mk_World (with_times (append t) (self w)) (trace w) (files w)).
Proof.
  unfold import_line.
  set (tokens := split "," line).
  set (new_data := filter (fun value => negb (String.eqb value "")) tokens).
  unfold bind at 1. unfold index at 1.
  destruct (getitem new_data 0) as [s |]; cbn [ret raise].
  2:{ exists IndexError, w. split; [reflexivity | now left]. }
  unfold bind at 1. unfold parse.
  destruct (dateutil_parse s) as [t |]; cbn [ret raise].
  2:{ exists (ParserError s), w. split; [reflexivity |]. right. left. eauto. }
  unfold bind at 1. unfold update_self at 1.
  destruct tokens as [| tok rest] eqn:Htok; [now apply split_not_nil in Htok |].
  exists (AttributeError "datum"). eexists. split; [reflexivity |].
  right. right. exists t. split; reflexivity.
Qed.

End Format.

(** * The further properties at the sample instruments *)

Import MoreSamples.

Lemma tracking_lab_settled_first : settled tracking_lab [0.1]%float.
Proof.
  intros tr field Hin. apply tracking_lab_settled. destruct Hin as [<- | []]. now left.
Qed.

Lemma garbled_measure :
  exists w', measure garbled_lab start = Raised (ValueError "n/a") w'.
Proof. eexists. vm_compute. reflexivity. Qed.

Lemma write_line_to_csv_out_of_range_witness :
  exists w',
    write_line_to_csv "log.csv" 0 start = Raised IndexError w'
    /\ self w' = self start
    /\ appended "log.csv" (trace w') = (appended "log.csv" (trace start) ++ [""])%list
    /\ read_file (files w') "log.csv" = Some (contents (files start) "log.csv").
Proof.
  apply (write_line_to_csv_out_of_range "log.csv" 0%Z start). cbn. lia.
Defined.

Lemma write_line_to_csv_negative_index_witness :
  write_line_to_csv "log.csv" (-1) after_one
  = write_line_to_csv "log.csv" (Z.of_nat (List.length (times (self after_one))) + -1)
                      after_one.
Proof.
  apply (write_line_to_csv_negative_index "log.csv" (-1)%Z after_one).
  assert (H : List.length (times (self after_one)) = 1) by (vm_compute; reflexivity).
  rewrite H. lia.
Defined.

Lemma measure_lockin_out_of_range_witness :
  measure_r_lockin steady_lab 3 start = Raised IndexError start
  /\ measure_o_lockin steady_lab 3 start = Raised IndexError start.
Proof.
  apply (measure_lockin_out_of_range steady_lab 3%Z start). lia.
Defined.

Lemma open_gpib_num_distinct_witness :
  _open_gpib_num 1 0 <> _open_gpib_num 2 0.
Proof.
  apply (open_gpib_num_distinct 1%Z 2%Z 0%Z). discriminate.
Defined.

Lemma measure_failure_keeps_timestamp_witness :
  exists w',
    measure garbled_lab start = Raised (ValueError "n/a") w'
    /\ times (self w') = [new_year]
    /\ ~ equal_lengths (self w').
Proof.
  destruct garbled_measure as [w' Hm].
  destruct (measure_failure_keeps_timestamp garbled_lab start _ w' Hm) as [Ht Hne].
  exists w'. split; [exact Hm |]. split; [exact Ht |].
  apply Hne. repeat constructor.
Defined.

Lemma measure_records_readings_witness :
  exists w',
    measure steady_lab start = Returned 0%Z w'
    /\ ef_vs (self w') = [1.0; 1.0]%float /\ ef_os (self w') = [].
Proof.
  destruct (measure_records_readings steady_lab start steady_lab_parses)
    as (w' & r1 & r2 & r3 & r4 & r5 & r6 & r7 & r8 & r9 & r10
        & x1 & x2 & x3 & x4 & x5 & x6 & x7 & x8 & x9 & x10 & Hm & _).
  exists w'. split; [exact Hm |].
  vm_compute in Hm. injection Hm as <-. split; reflexivity.
Defined.

Lemma after_measures_shape_witness :
  List.length (times (self after_one)) = 1
  /\ Forall (fun datum => List.length datum = 1)
            [diodevs (self after_one); currs (self after_one); fields (self after_one);
             bf_vs (self after_one); bf_os (self after_one); freqs (self after_one)]
  /\ List.length (ef_vs (self after_one)) = 2 * 1
  /\ List.length (ad_vs (self after_one)) = 2 * 1
  /\ ef_os (self after_one) = [] /\ ad_os (self after_one) = [].
Proof.
  apply (after_measures_shape steady_lab 1 after_one).
  apply measures_next with (w := start) (i := 0%Z);
    [apply measures_fresh, start_is_fresh | exact measure_start].
Defined.

Lemma change_field_never_returns_witness :
  change_field stuck_lab 1000 1.0%float start = Looping.
Proof.
  apply (change_field_never_returns stuck_lab 1.0%float).
  left. intros tr. exists 2.0%float. split; reflexivity.
Defined.


Lemma change_field_settles_witness :
  exists w',
    change_field tracking_lab 1 0.1%float start = Returned tt w'
    /\ written mag_ctrl (trace w') = ["CONF:FIELD:PROG 0.1"; "RAMP"; "PAUSE"].
Proof.
  destruct (change_field_settles tracking_lab 0 0.1%float start tracking_lab_settled_first)
    as (w' & Hrun & _ & _ & _ & Hw).
  exists w'. split; [exact Hrun | exact Hw].
Defined.

Lemma change_current_settles_witness :
  exists w',
    change_current steady_lab 1 1.0%float start = Returned tt w'
    /\ written mag_ctrl (trace w') = ["CONF:CURR:PROG 1.0"; "RAMP"; "PAUSE"].
Proof.
  eexists. split.
  - apply (change_current_settles steady_lab 0 1.0%float "1.0" 1.0%float start);
      reflexivity.
  - reflexivity.
Defined.



Lemma write_line_to_csv_line_format_witness :
  exists w',
    write_line_to_csv "log.csv" 0 logged = Returned tt w'
    /\ read_file (files w') "log.csv"
       = Some ("header" ++ newline
                 ++ "2024-01-01T00:00:00,[1.0],[1.0],[1.0],[1.0, 1.0],[],[1.0],[1.0],[1.0, 1.0],[],[1.0],"
                 ++ newline).
Proof.
  destruct (write_line_to_csv_line_format "log.csv" 0%Z new_year logged eq_refl)
    as (w' & Hrun & _ & Hfile & _).
  exists w'. split; [exact Hrun |]. rewrite Hfile. vm_compute. reflexivity.
Defined.

Lemma overshoot_run :
  exists w', change_field overshoot_lab 1 1.0%float start = Returned tt w'.
Proof. eexists. vm_compute. reflexivity. Qed.

Lemma change_field_exit_guarantee_witness :
  exists w' earlier r1 r2 x1 x2,
    change_field overshoot_lab 1 1.0%float start = Returned tt w'
    /\ field_readings (trace w') = (field_readings (trace start) ++ earlier ++ [r1; r2])%list
    /\ float_of_str r1 = Some x1 /\ float_of_str r2 = Some x2
    /\ (1.1 * 1.0 <? x1)%float = false
    /\ (x2 <? 0.9 * 1.0)%float = false.
Proof.
  destruct overshoot_run as [w' Hrun].
  destruct (change_field_exit_guarantee overshoot_lab 1 1.0%float start w' Hrun)
    as (earlier & r1 & r2 & x1 & x2 & H).
  exists w', earlier, r1, r2, x1, x2. split; [exact Hrun | exact H].
Defined.
